(** * rach3datautils.utils.path : the filename classifier [PathUtils]

    A shallow embedding of [src/rach3datautils/utils/path.py].

    Modelling choices.
    - A Python [str] is a Rocq [string]; a character is an [ascii], read as
      the code point U+0000..U+00FF.  In that range [\d] and [[0-9]] denote
      the same ten characters, and [int] reads them in base ten.
    - A raised exception is the left injection of a sum ([result]); the
      right injection is the returned value.  [None] is [None].
    - [re.search] is a backtracking matcher over a small regex syntax that
      covers the six patterns of the module, with Python's meaning of [^]
      (start of the string) and of [$] (end of the string, or just before a
      newline that ends the string).
    - [pathlib.PurePosixPath] is a record of the root and the components;
      [name], [suffix], [stem] and [str] follow pathlib.
    - [time.mktime] depends on the local time zone; it is a [Variable] of
      the section that holds [get_split_num_id].
    - [root.rglob] reads the file system; the tree below the root is an
      argument of [get_files_by_type], given as the listing of each
      directory. *)

From Stdlib Require Import String Ascii List ZArith Lia Bool Arith.
Import ListNotations.

Local Open Scope list_scope.
Local Open Scope string_scope.

(** ** Exceptions and results *)

Inductive exn : Type :=
| IdentityError (msg : string)
| AttributeError (msg : string)
| IndexError (msg : string)
| ValueError (msg : string).

Definition result (A : Type) : Type := (exn + A)%type.

Definition ret {A : Type} (a : A) : result A := inr a.
Definition raise {A : Type} (e : exn) : result A := inl e.

Definition bind {A B : Type} (m : result A) (f : A -> result B) : result B :=
  match m with
  | inl e => inl e
  | inr a => f a
  end.

Notation "x <- m ;; k" := (bind m (fun x => k))
  (at level 61, m at next level, right associativity).

Definition raises {A : Type} (m : result A) : bool :=
  match m with inl _ => true | inr _ => false end.

(** ** Strings *)

Module Str.

Definition newline : ascii := "010"%char.

(** [c.isdigit()] for a code point below 256, as [\d] and [[0-9]] see it. *)
Definition is_digit (c : ascii) : bool :=
  (48 <=? nat_of_ascii c)%nat && (nat_of_ascii c <=? 57)%nat.

Definition digit_val (c : ascii) : Z := Z.of_nat (nat_of_ascii c) - 48.

Fixpoint all_digits (s : string) : bool :=
  match s with
  | EmptyString => true
  | String c s' => is_digit c && all_digits s'
  end.

Fixpoint has_digit (s : string) : bool :=
  match s with
  | EmptyString => false
  | String c s' => is_digit c || has_digit s'
  end.

(** The value of a run of decimal digits, most significant first. *)
Fixpoint digits_val (acc : Z) (s : string) : Z :=
  match s with
  | EmptyString => acc
  | String c s' => digits_val (acc * 10 + digit_val c) s'
  end.

(** [int(s)] on the strings the module passes to it: a non-empty run of
    digits.  Anything else is reported as [ValueError]. *)
Definition int (s : string) : result Z :=
  match s with
  | EmptyString => raise (ValueError "invalid literal for int() with base 10")
  | _ => if all_digits s then ret (digits_val 0 s)
         else raise (ValueError "invalid literal for int() with base 10")
  end.

(** [s.split(sep)] for a one-character separator: never the empty list. *)
Fixpoint split (sep : ascii) (s : string) : list string :=
  match s with
  | EmptyString => [EmptyString]
  | String c s' =>
      if Ascii.eqb c sep then EmptyString :: split sep s'
      else match split sep s' with
           | t :: ts => String c t :: ts
           | [] => [String c EmptyString]
           end
  end.

(** [sep.join(l)]. *)
Fixpoint join (sep : string) (l : list string) : string :=
  match l with
  | [] => EmptyString
  | [x] => x
  | x :: rest => x ++ sep ++ join sep rest
  end.

(** [s.rfind(c)]: the last index of [c], or [-1]. *)
Fixpoint rfind (c : ascii) (s : string) : Z :=
  match s with
  | EmptyString => (-1)%Z
  | String x s' =>
      let i := rfind c s' in
      if (0 <=? i)%Z then (i + 1)%Z
      else if Ascii.eqb x c then 0%Z else (-1)%Z
  end.

(** [s[i:]] and [s[:i]] for [0 <= i]. *)
Fixpoint drop (n : nat) (s : string) : string :=
  match n, s with
  | O, _ => s
  | S n', String _ s' => drop n' s'
  | S _, EmptyString => EmptyString
  end.

Fixpoint take (n : nat) (s : string) : string :=
  match n, s with
  | O, _ => EmptyString
  | S n', String c s' => String c (take n' s')
  | S _, EmptyString => EmptyString
  end.

(** [s[-n:]] for [0 < n]: the last [n] characters, or all of [s]. *)
Definition last_n (n : nat) (s : string) : string :=
  drop (String.length s - n) s.

Definition index_error : exn := IndexError "string index out of range".

(** [s[0]]. *)
Definition first_char (s : string) : result ascii :=
  match s with
  | EmptyString => raise index_error
  | String c _ => ret c
  end.

(** [x in l] for a list of strings. *)
Definition mem (x : string) (l : list string) : bool :=
  existsb (String.eqb x) l.

End Str.

(** ** Regular expressions: the fragment of [re] the module uses *)

Module Re.

Inductive regex : Type :=
| Lit (c : ascii)                  (* a literal character          *)
| Digit                            (* \d                           *)
| Class (lo hi : ascii)            (* [lo-hi]                      *)
| Bol                              (* ^                            *)
| Eol                              (* $                            *)
| Cat (r1 r2 : regex)              (* r1 r2                        *)
| Alt (r1 r2 : regex)              (* r1|r2                        *)
| Repeat (r : regex) (lo hi : nat) (* r{lo,hi}, greedy             *).

(** A literal word, character by character. *)
Fixpoint word (s : string) (tail : regex) : regex :=
  match s with
  | EmptyString => tail
  | String c s' => Cat (Lit c) (word s' tail)
  end.

Definition in_class (lo hi c : ascii) : bool :=
  (nat_of_ascii lo <=? nat_of_ascii c)%nat
  && (nat_of_ascii c <=? nat_of_ascii hi)%nat.

(** [$] without MULTILINE: at the end, or before a final newline. *)
Definition at_eol (s : string) : bool :=
  match s with
  | EmptyString => true
  | String c EmptyString => Ascii.eqb c Str.newline
  | _ => false
  end.

Definition orelse {A : Type} (a b : option A) : option A :=
  match a with
  | Some x => Some x
  | None => b
  end.

Section Matcher.
Context {A : Type}.

Definition one (p : ascii -> bool) (pos : nat) (s : string)
    (k : nat -> string -> option A) : option A :=
  match s with
  | String c s' => if p c then k (S pos) s' else None
  | EmptyString => None
  end.

(** [m r pos s k]: match [r] at offset [pos], where [s] is what is left
    of the subject, then go on with [k]; alternatives are tried in the
    order of the backtracking engine (left branch first, the longer
    repetition first). *)
Fixpoint m (r : regex) (pos : nat) (s : string)
    (k : nat -> string -> option A) {struct r} : option A :=
  match r with
  | Lit c => one (Ascii.eqb c) pos s k
  | Digit => one Str.is_digit pos s k
  | Class lo hi => one (in_class lo hi) pos s k
  | Bol => if (pos =? 0)%nat then k pos s else None
  | Eol => if at_eol s then k pos s else None
  | Cat r1 r2 => m r1 pos s (fun p t => m r2 p t k)
  | Alt r1 r2 => orelse (m r1 pos s k) (m r2 pos s k)
  | Repeat r' lo hi =>
      (fix rep (lo hi pos : nat) (s : string) {struct hi} : option A :=
         match hi with
         | O => if (lo =? 0)%nat then k pos s else None
         | S hi' =>
             orelse (m r' pos s (fun p t => rep (Nat.pred lo) hi' p t))
                    (if (lo =? 0)%nat then k pos s else None)
         end) lo hi pos s
  end.
End Matcher.

(** A match object: the subject and the span of the match. *)
Record Match : Type := mkMatch { subject : string; m_start : nat; m_end : nat }.

(** [match.group()]. *)
Definition group (mt : Match) : string :=
  Str.take (m_end mt - m_start mt) (Str.drop (m_start mt) (subject mt)).

(** The end offset of the first way [r] matches at [pos]. *)
Definition match_at (r : regex) (pos : nat) (s : string) : option nat :=
  m r pos s (fun p _ => Some p).

(** Try every start offset from [pos] up to and including the end. *)
Fixpoint search_from (r : regex) (pos : nat) (s : string) : option (nat * nat) :=
  match match_at r pos s with
  | Some e => Some (pos, e)
  | None =>
      match s with
      | EmptyString => None
      | String _ s' => search_from r (S pos) s'
      end
  end.

(** [re.search(pattern, string)]. *)
Definition search (r : regex) (s : string) : option Match :=
  match search_from r 0 s with
  | Some (b, e) => Some (mkMatch s b e)
  | None => None
  end.

(** [bool(re.search(pattern, string))]. *)
Definition found (r : regex) (s : string) : bool :=
  match search r s with Some _ => true | None => false end.

Definition no_group : exn :=
  AttributeError "'NoneType' object has no attribute 'group'".

(** [re.search(pattern, string).group()]: on [None] the attribute access
    raises. *)
Definition search_group (r : regex) (s : string) : result string :=
  match search r s with
  | Some mt => ret (group mt)
  | None => raise no_group
  end.

End Re.

(** ** Paths: [pathlib.PurePosixPath] *)

Module Pathlib.

(** The root of a path: none, ["/"], or ["//"] (exactly two leading slashes
    are kept; three or more are one). *)
Inductive root_kind : Type := no_root | one_slash | two_slashes.

(** A parsed path: its root, and its components (none of them empty,
    ["."], or containing ["/"]). *)
Record Path : Type := mkPath { rooted : root_kind; parts : list string }.

Definition slash : ascii := "/"%char.
Definition dot : ascii := "."%char.

Definition is_component (s : string) : bool :=
  negb (String.eqb s "") && negb (String.eqb s ".").

(** The root that [splitroot] reads off the leading slashes of [s]. *)
Definition root_of (s : string) : root_kind :=
  if String.eqb (Str.take 3 s) "///" then one_slash
  else if String.eqb (Str.take 2 s) "//" then two_slashes
  else if String.eqb (Str.take 1 s) "/" then one_slash
  else no_root.

(** [Path(s)]: read the root, split at the slashes, drop empty and ["."]
    components. *)
Definition of_string (s : string) : Path :=
  mkPath (root_of s) (filter is_component (Str.split slash s)).

(** [str(path)]. *)
Definition str (p : Path) : string :=
  match rooted p, parts p with
  | no_root, [] => "."
  | no_root, l => Str.join "/" l
  | one_slash, l => "/" ++ Str.join "/" l
  | two_slashes, l => "//" ++ Str.join "/" l
  end.

(** [path.name]: the final component, or the empty string. *)
Definition name (p : Path) : string := last (parts p) "".

(** The index at which the extension starts, when there is one:
    [0 < i < len(name) - 1] for [i = name.rfind('.')]. *)
Definition suffix_index (nm : string) : option nat :=
  let i := Str.rfind dot nm in
  if (0 <? i)%Z && (i <? Z.of_nat (String.length nm) - 1)%Z
  then Some (Z.to_nat i) else None.

(** [path.suffix]. *)
Definition suffix (p : Path) : string :=
  match suffix_index (name p) with
  | Some i => Str.drop i (name p)
  | None => ""
  end.

(** [path.stem]. *)
Definition stem (p : Path) : string :=
  match suffix_index (name p) with
  | Some i => Str.take i (name p)
  | None => name p
  end.

End Pathlib.

(** ** Calendar dates: [datetime.strptime(s, "%Y-%m-%d")] *)

Module Datetime.

Local Open Scope Z_scope.

Record datetime : Type := mkDate { year : Z; month : Z; day : Z }.

Definition is_leap (y : Z) : bool :=
  (y mod 4 =? 0) && (negb (y mod 100 =? 0) || (y mod 400 =? 0)).

Definition days_in_month (y mo : Z) : Z :=
  if mo =? 2 then (if is_leap y then 29 else 28)
  else if (mo =? 4) || (mo =? 6) || (mo =? 9) || (mo =? 11) then 30
  else 31.

(** The two ways [strptime] fails, both a ValueError (the messages of the
    library name the offending data; they are shortened here). *)
Definition no_match : exn := ValueError "time data does not match format".
Definition out_of_range : exn := ValueError "value is out of range".

(** [strptime] on a string of the shape dddd-dd-dd, the only shape
    [get_date] hands over: the month must read 01..12 and the day 01..31
    for the format to match; the year must be at least 1 and the day must
    exist in the month for the date to be built. *)
Definition strptime (s : string) : result datetime :=
  match s with
  | String y1 (String y2 (String y3 (String y4 (String h1
    (String m1 (String m2 (String h2 (String d1 (String d2 EmptyString))))))))) =>
      if Str.all_digits (String y1 (String y2 (String y3 (String y4
           (String m1 (String m2 (String d1 (String d2 EmptyString))))))))
         && Ascii.eqb h1 "-" && Ascii.eqb h2 "-"
      then
        let y := Str.digits_val 0 (String y1 (String y2 (String y3 (String y4 EmptyString)))) in
        let mo := Str.digits_val 0 (String m1 (String m2 EmptyString)) in
        let d := Str.digits_val 0 (String d1 (String d2 EmptyString)) in
        if (1 <=? mo) && (mo <=? 12) && (1 <=? d) && (d <=? 31) then
          if (1 <=? y) && (d <=? days_in_month y mo)
          then ret (mkDate y mo d)
          else raise out_of_range
        else raise no_match
      else raise no_match
  | _ => raise no_match
  end.

(** Seconds from 1970-01-01 to the midnight that starts the date, in UTC
    (the proleptic Gregorian calendar): what [mktime] is when the local
    zone is UTC. *)
Definition days_from_civil (y mo d : Z) : Z :=
  let y' := if mo <=? 2 then y - 1 else y in
  let era := y' / 400 in
  let yoe := y' - era * 400 in
  let mp := (mo + 9) mod 12 in
  let doy := (153 * mp + 2) / 5 + d - 1 in
  let doe := yoe * 365 + yoe / 4 - yoe / 100 + doy in
  era * 146097 + doe - 719468.

Definition utc_mktime (dt : datetime) : Z :=
  days_from_civil (year dt) (month dt) (day dt) * 86400.

End Datetime.

(** ** [PathUtils] *)

Module PathUtils.

Import Re Pathlib.

Inductive filetype : Type :=
| midi | full_midi | flac | full_flac | mp4 | full_video | video | aac
| full_audio | audio | trimmed_video | split_midi | split_video | split_flac.

(** The underscore-delimited tokens: [file.stem.split("_")]. *)
Definition tokens (file : Path) : list string := Str.split "_"%char (stem file).

(** [l[-1]] and [l[0]] of a list that [split] returned (never empty). *)
Definition last_token (file : Path) : string := last (tokens file) "".
Definition first_token (file : Path) : string := hd "" (tokens file).

(** r"^split\d{1,2}$" *)
Definition split_pat : regex := Cat Bol (word "split" (Cat (Repeat Digit 1 2) Eol)).
(** "(^a|^v)\\d\\d$" *)
Definition session_pat : regex :=
  Cat (Alt (Cat Bol (Lit "a")) (Cat Bol (Lit "v"))) (Cat Digit (Cat Digit Eol)).
(** r"([0-9]{4})-([0-9]{2})-([0-9]{2})" *)
Definition date_pat : regex :=
  Cat (Repeat (Class "0" "9") 4 4)
    (Cat (Lit "-") (Cat (Repeat (Class "0" "9") 2 2)
      (Cat (Lit "-") (Repeat (Class "0" "9") 2 2)))).
(** "a\\d{2}" *)
Definition fileno_a_pat : regex := Cat (Lit "a") (Repeat Digit 2 2).
(** "p\\d{3}" *)
Definition fileno_p_pat : regex := Cat (Lit "p") (Repeat Digit 3 3).
(** "\\d{1,2}" *)
Definition split_no_pat : regex := Repeat Digit 1 2.

Definition is_split (file : Path) : bool :=
  existsb (fun i => found split_pat i) (tokens file).

Definition is_valid_video (file : Path) : result bool :=
  c <- Str.first_char (last_token file) ;;
  ret (Ascii.eqb c "p" && String.eqb (suffix file) ".mp4").

Definition is_valid_audio (file : Path) : result bool :=
  c <- Str.first_char (last_token file) ;;
  ret (Ascii.eqb c "p" && String.eqb (suffix file) ".aac").

Definition get_session_id (file : Path) : string := first_token file.

Fixpoint get_session_no_loop (l : list string) : option string :=
  match l with
  | [] => None
  | i :: rest =>
      if found session_pat i then Some ("a" ++ Str.last_n 2 i)
      else get_session_no_loop rest
  end.

Definition get_session_no (file : Path) : option string :=
  get_session_no_loop (tokens file).

Definition no_date : exn :=
  IdentityError "Date could not be identified from the given file.".

Definition get_date (file : Path) : result string :=
  match search date_pat (name file) with
  | None => raise no_date
  | Some mt => ret (group mt)
  end.

Definition is_full_audio (file : Path) : bool :=
  Str.mem "full" (tokens file) && String.eqb (suffix file) ".aac".

Definition get_fileno_a (file : Path) : result Z :=
  no <- search_group fileno_a_pat (str file) ;;
  Str.int (Str.last_n 2 no).

Definition get_fileno_p (file : Path) : result Z :=
  no <- search_group fileno_p_pat (str file) ;;
  Str.int (Str.last_n 3 no).

Definition is_trimmed (file : Path) : bool := Str.mem "trimmed" (tokens file).

Definition is_warmup (file : Path) : bool := String.eqb (first_token file) "warmup".

Definition is_valid_flac (file : Path) : result bool :=
  if String.eqb (suffix file) ".flac"
  then c <- Str.first_char (last_token file) ;; ret (Ascii.eqb c "a")
  else ret false.

Definition is_valid_midi (file : Path) : result bool :=
  if String.eqb (suffix file) ".mid"
  then c <- Str.first_char (last_token file) ;; ret (Ascii.eqb c "a")
  else ret false.

Definition is_full_video (file : Path) : bool :=
  String.eqb (last_token file) "full" && String.eqb (suffix file) ".mp4".

Definition get_type (path : Path) : result (option filetype) :=
  if String.eqb (suffix path) ".mid" then
    v <- is_valid_midi path ;;
    if v then ret (Some full_midi)
    else if is_split path then ret (Some split_midi)
    else ret None
  else if String.eqb (suffix path) ".flac" then
    v <- is_valid_flac path ;;
    if v then ret (Some full_flac)
    else if is_split path then ret (Some split_flac)
    else ret None
  else if String.eqb (suffix path) ".mp4" then
    if is_trimmed path then ret (Some trimmed_video)
    else if is_full_video path then ret (Some full_video)
    else
      v <- is_valid_video path ;;
      if v then ret (Some video)
      else if is_split path then ret (Some split_video)
      else ret None
  else if String.eqb (suffix path) ".aac" then
    if is_full_audio path then ret (Some full_audio)
    else
      v <- is_valid_audio path ;;
      if v then ret (Some audio)
      else ret None
  else ret None.

Definition get_split_no (file : Path) : result Z :=
  no <- search_group split_no_pat (last_token file) ;;
  Str.int no.

Definition too_large : exn :=
  AttributeError "Cannot get split_num_id of a split that's larger than 100.".

Section SplitNumId.
(** [int(time.mktime(d.timetuple()))]: the epoch seconds of the local
    midnight that starts the date.  They depend on the time zone of the
    machine, so the function is a parameter; [mktime] returns a float that
    is a whole number, which [int] keeps. *)
Variable mktime : Datetime.datetime -> Z.

Definition get_split_num_id (file : Path) : result Z :=
  date <- get_date file ;;
  date_parsed <- Datetime.strptime date ;;
  split_no <- get_split_no file ;;
  if (100 <=? split_no)%Z then raise too_large
  else ret (mktime date_parsed * 100 + split_no)%Z.
End SplitNumId.

End PathUtils.

Import Re Pathlib PathUtils.

(** ** Shapes of words, written without the matcher *)

Module Shape.

(** What follows the word [p] at the start of [s], if [s] starts with it. *)
Fixpoint strip_prefix (p s : string) : option string :=
  match p, s with
  | EmptyString, _ => Some s
  | String a p', String b s' =>
      if Ascii.eqb a b then strip_prefix p' s' else None
  | String _ _, EmptyString => None
  end.

(** A run of at least [lo] and at most [hi] digits, and nothing else. *)
Definition digit_run (lo hi : nat) (s : string) : bool :=
  (lo <=? String.length s)%nat && (String.length s <=? hi)%nat
  && Str.all_digits s.

(** [s] without the newline that ends it, if one does. *)
Fixpoint chomp (s : string) : string :=
  match s with
  | EmptyString => EmptyString
  | String c EmptyString =>
      if Ascii.eqb c Str.newline then EmptyString else s
  | String c s' => String c (chomp s')
  end.

(** "split" and then one or two digits. *)
Definition split_word (t : string) : bool :=
  match strip_prefix "split" t with
  | Some ds => digit_run 1 2 ds
  | None => false
  end.

(** "a" or "v" and then two digits. *)
Definition session_word (t : string) : bool :=
  match t with
  | String c ds => (Ascii.eqb "a" c || Ascii.eqb "v" c) && digit_run 2 2 ds
  | EmptyString => false
  end.

(** Four digits, a hyphen, two digits, a hyphen, two digits. *)
Definition date_word (d : string) : bool :=
  digit_run 4 4 (Str.take 4 d)
  && String.eqb "-" (Str.take 1 (Str.drop 4 d))
  && digit_run 2 2 (Str.take 2 (Str.drop 5 d))
  && String.eqb "-" (Str.take 1 (Str.drop 7 d))
  && digit_run 2 2 (Str.drop 8 d).

(** The letter [c] and then [n] digits. *)
Definition numbered_word (c : ascii) (n : nat) (w : string) : bool :=
  match w with
  | String x ds => Ascii.eqb c x && digit_run n n ds
  | EmptyString => false
  end.

(** [s] begins with a digit. *)
Definition starts_digit (s : string) : bool :=
  match s with
  | String c _ => Str.is_digit c
  | EmptyString => false
  end.

(** The first two characters of [s] if the second is a digit, else the
    first one: the digits a greedy [\d{1,2}] takes where [s] begins with
    a digit. *)
Definition digit_prefix (s : string) : string :=
  match s with
  | String c1 (String c2 _) =>
      if Str.is_digit c2 then String c1 (String c2 EmptyString)
      else String c1 EmptyString
  | _ => s
  end.

(** [s] begins with a word of [n] characters that has the shape [w]. *)
Definition starts_with (w : string -> bool) (n : nat) (s : string) : bool :=
  w (Str.take n s).

(** The least offset at which [P] holds of what is left of [s]. *)
Fixpoint first_at (P : string -> bool) (s : string) : option nat :=
  if P s then Some 0%nat
  else match s with
       | EmptyString => None
       | String _ s' => option_map S (first_at P s')
       end.

(** [s] contains a word of [n] characters that has the shape [w]. *)
Definition occurs (w : string -> bool) (n : nat) (s : string) : bool :=
  match first_at (starts_with w n) s with Some _ => true | None => false end.

(** [d] is the leftmost word of shape [w] in [s]: [s] is [pre ++ d ++ post]
    and no word of that shape starts further left. *)
Definition leftmost (w : string -> bool) (s pre d post : string) : Prop :=
  s = pre ++ d ++ post /\ w d = true
  /\ forall pre' d' post', s = pre' ++ d' ++ post' -> w d' = true ->
       (String.length pre <= String.length pre')%nat.

(** No word of shape [w] is a substring of [s]. *)
Definition absent (w : string -> bool) (s : string) : Prop :=
  forall pre d post, s = pre ++ d ++ post -> w d = false.

Definition is_some {A : Type} (o : option A) : bool :=
  match o with Some _ => true | None => false end.

End Shape.
Import Shape.

(** ** The classifier as a dispatch table *)

Module Dispatch.

(** The first entry of a dispatch table whose predicate returned true; a
    predicate that raised ends the dispatch with its exception. *)
Fixpoint first_match (l : list (result bool * filetype)) : result (option filetype) :=
  match l with
  | [] => ret None
  | (p, tag) :: rest =>
      b <- p ;; if b then ret (Some tag) else first_match rest
  end.

(** The extensions [get_type] dispatches on. *)
Definition supported (sfx : string) : bool :=
  String.eqb sfx ".mid" || String.eqb sfx ".flac"
  || String.eqb sfx ".mp4" || String.eqb sfx ".aac".

End Dispatch.
Import Dispatch.

(** ** Characters of a token, and the extension of a tag *)

Module Tags.

(** [c in s]. *)
Fixpoint has_char (c : ascii) (s : string) : bool :=
  match s with
  | EmptyString => false
  | String x s' => Ascii.eqb x c || has_char c s'
  end.

(** The extension under which [get_type] hands out a tag, if it ever does. *)
Definition tag_suffix (t : filetype) : option string :=
  match t with
  | full_midi | split_midi => Some ".mid"
  | full_flac | split_flac => Some ".flac"
  | trimmed_video | full_video | video | split_video => Some ".mp4"
  | full_audio | audio => Some ".aac"
  | midi | flac | mp4 | aac => None
  end.

(** [s] is not empty and [s[0]] is [c]. *)
Definition begins_with (c : ascii) (s : string) : bool :=
  match s with
  | String x _ => Ascii.eqb x c
  | EmptyString => false
  end.
End Tags.
Import Tags.

(** ** The directory scan: [root.rglob('*' + filetype)] over a file tree

    [rglob] visits the root and every directory below it and, in each,
    selects the entries (files and directories) whose name matches the
    pattern; for the four extensions the pattern ['*' + filetype] matches a
    name exactly when the name ends with the extension.  Symbolic links
    and entries that cannot be read are not modelled. *)

Module Scan.

(** [suffixes]: the four values of the Literal. *)
Inductive suffixes : Type := dot_aac | dot_flac | dot_mp4 | dot_mid.

Definition suffix_string (x : suffixes) : string :=
  match x with
  | dot_aac => ".aac"
  | dot_flac => ".flac"
  | dot_mp4 => ".mp4"
  | dot_mid => ".mid"
  end.

#[local] Unset Elimination Schemes.
(** What [os.scandir] lists: a file, or a directory with its own listing. *)
Inductive entry : Type :=
| File (nm : string)
| Dir (nm : string) (listing : list entry).
#[local] Set Elimination Schemes.

Definition entry_name (e : entry) : string :=
  match e with File nm => nm | Dir nm _ => nm end.

(** [fnmatch(name, '*' + ext)] for an [ext] without wildcard characters:
    [name] ends with [ext]. *)
Fixpoint ends_with (ext s : string) : bool :=
  String.eqb s ext
  || match s with
     | String _ s' => ends_with ext s'
     | EmptyString => false
     end.

(** The entries of one directory that the pattern selects, as paths. *)
Definition select (ext : string) (here : list string) (l : list entry)
  : list (list string) :=
  map (fun e => (here ++ [entry_name e])%list)
      (filter (fun e => ends_with ext (entry_name e)) l).

(** The selection in every directory at or below the entry [e] of the
    directory [here]: nothing for a file; for a directory, its own
    selection, then that of each directory it lists, in listing order. *)
Fixpoint select_in (ext : string) (here : list string) (e : entry)
  : list (list string) :=
  match e with
  | File _ => []
  | Dir nm sub =>
      (select ext (here ++ [nm]) sub
       ++ flat_map (select_in ext (here ++ [nm])) sub)%list
  end.

Definition select_below (ext : string) (here : list string) (l : list entry)
  : list (list string) :=
  flat_map (select_in ext here) l.

(** [root.rglob('*' + ext)] where [listing] is what the directory [root]
    holds. *)
Definition rglob (listing : list entry) (root : Path) (ext : string) : list Path :=
  map (mkPath (rooted root))
      (select ext (parts root) listing ++ select_below ext (parts root) listing).

Definition get_files_by_type (listing : list entry) (root : Path)
    (filetype : suffixes) : list Path :=
  rglob listing root (suffix_string filetype).

(** [rel] leads from a directory with the listing [l] to one of the
    entries below it, through directories. *)
Inductive leads_to : list entry -> list string -> entry -> Prop :=
| leads_here (l : list entry) (e : entry) :
    In e l -> leads_to l [entry_name e] e
| leads_down (l : list entry) (nm : string) (sub : list entry)
    (rel : list string) (e : entry) :
    In (Dir nm sub) l -> leads_to sub rel e -> leads_to l (nm :: rel) e.

End Scan.
Import Scan.

(** ** Facts about strings *)

Module StrFacts.

Lemma split_not_nil (sep : ascii) (s : string) : Str.split sep s <> [].
Proof.
  destruct s as [|c s]; cbn; [discriminate|].
  destruct (Ascii.eqb c sep); [discriminate|].
  destruct (Str.split sep s); discriminate.
Qed.

Lemma newline_not_digit (c : ascii) :
  Ascii.eqb c Str.newline = true -> Str.is_digit c = false.
Proof. intros H. apply Ascii.eqb_eq in H. now subst c. Qed.

Lemma length_app (a b : string) :
  String.length (a ++ b) = (String.length a + String.length b)%nat.
Proof. induction a as [|c a IH]; cbn; [reflexivity | now rewrite IH]. Qed.

Lemma drop_app (pre s : string) : Str.drop (String.length pre) (pre ++ s) = s.
Proof. induction pre as [|c pre IH]; cbn; [reflexivity | exact IH]. Qed.

Lemma take_app (d post : string) : Str.take (String.length d) (d ++ post) = d.
Proof. induction d as [|c d IH]; cbn; [reflexivity | now rewrite IH]. Qed.

Lemma take_drop (n : nat) (s : string) : Str.take n s ++ Str.drop n s = s.
Proof.
  revert s. induction n as [|n IH]; intros [|c s]; cbn; try reflexivity.
  now rewrite IH.
Qed.

Lemma length_take (n : nat) (s : string) :
  (n <= String.length s)%nat -> String.length (Str.take n s) = n.
Proof.
  revert s. induction n as [|n IH]; intros [|c s]; cbn; intros H;
    try reflexivity; try lia.
  rewrite IH; [reflexivity | lia].
Qed.

Lemma length_drop (n : nat) (s : string) :
  String.length (Str.drop n s) = (String.length s - n)%nat.
Proof.
  revert s. induction n as [|n IH]; intros [|c s]; cbn; try reflexivity.
  apply IH.
Qed.

End StrFacts.

(** ** Facts about the matcher on the patterns of the module *)

Module ReFacts.

Import StrFacts.

Local Arguments Ascii.eqb : simpl never.
Local Arguments Str.is_digit : simpl never.
Local Arguments in_class : simpl never.

Ltac case_tests :=
  repeat match goal with
    | |- context [in_class "0" "9" ?a] =>
        change (in_class "0" "9" a) with (Str.is_digit a)
    | H : Str.is_digit ?a = _ |- context [Str.is_digit ?a] => rewrite H; cbn
    | H : Ascii.eqb ?a ?b = _ |- context [Ascii.eqb ?a ?b] => rewrite H; cbn
    | |- context [Ascii.eqb ?a ?b] => destruct (Ascii.eqb a b) eqn:?; cbn
    | |- context [Str.is_digit ?a] => destruct (Str.is_digit a) eqn:?; cbn
    end.

Ltac newline_digit :=
  match goal with
  | H : Ascii.eqb ?c _ = true, H' : Str.is_digit ?c = true |- _ =>
      rewrite (newline_not_digit c H) in H'; discriminate H'
  end.

Lemma m_word {A : Type} (w : string) (tail : regex) (pos : nat) (s : string)
    (k : nat -> string -> option A) :
  m (word w tail) pos s k =
  match strip_prefix w s with
  | Some rest => m tail (pos + String.length w) rest k
  | None => None
  end.
Proof.
  revert pos s. induction w as [|a w IH]; intros pos s; cbn.
  - now rewrite Nat.add_0_r.
  - destruct s as [|b s]; cbn; [reflexivity|].
    destruct (Ascii.eqb a b); [|reflexivity].
    rewrite IH. now rewrite Nat.add_succ_r.
Qed.

Lemma digits12_eol (pos : nat) (ds : string) :
  is_some (m (Cat (Repeat Digit 1 2) Eol) pos ds (fun p _ => Some p))
  = digit_run 1 2 (chomp ds).
Proof.
  unfold digit_run.
  destruct ds as [|c1 [|c2 [|c3 [|c4 r]]]]; cbn; case_tests;
    try reflexivity; newline_digit.
Qed.

(** A pattern that starts with [^] matches at the start or nowhere. *)
Lemma search_bol (r : regex) (pos : nat) (s : string) :
  (forall p t, match_at r (S p) t = None) ->
  search_from r (S pos) s = None.
Proof.
  intros H. revert pos. induction s as [|c s IH]; intros pos; cbn;
    rewrite H; [reflexivity | apply IH].
Qed.

Lemma found_bol (r : regex) (s : string) :
  (forall p t, match_at r (S p) t = None) ->
  found r s = is_some (match_at r 0 s).
Proof.
  intros H. unfold found, search.
  destruct s as [|c s]; cbn [search_from];
    destruct (match_at r 0 _); try reflexivity.
  now rewrite search_bol.
Qed.

Lemma chomp_strip (w t : string) :
  forallb (fun c => negb (Ascii.eqb c Str.newline)) (list_ascii_of_string w) = true ->
  strip_prefix w (chomp t) = option_map chomp (strip_prefix w t).
Proof.
  unfold Str.newline.
  revert t. induction w as [|a w IH]; intros t Hw; [reflexivity|].
  cbn in Hw. apply andb_true_iff in Hw as [Ha Hw].
  apply negb_true_iff in Ha.
  destruct t as [|b t]; [reflexivity|].
  destruct t as [|b' t].
  - cbn. unfold Str.newline. destruct (Ascii.eqb b "010") eqn:Hb; cbn.
    + apply Ascii.eqb_eq in Hb. subst b.
      now rewrite Ha.
    + destruct (Ascii.eqb a b); [|reflexivity]. now destruct w.
  - change (chomp (String b (String b' t))) with (String b (chomp (String b' t))).
    cbn [strip_prefix]. destruct (Ascii.eqb a b); [|reflexivity].
    now apply IH.
Qed.

(** The whole of r"^split\d{1,2}$" on a token. *)
Lemma found_split_pat (t : string) : found split_pat t = split_word (chomp t).
Proof.
  rewrite found_bol by reflexivity.
  unfold match_at, split_pat, split_word.
  cbn [m Nat.eqb]. rewrite m_word, chomp_strip by reflexivity.
  destruct (strip_prefix "split" t) as [ds|]; [|reflexivity].
  apply digits12_eol.
Qed.

(** The whole of "(^a|^v)\\d\\d$" on a token. *)
Lemma found_session_pat (t : string) :
  found session_pat t = session_word (chomp t).
Proof.
  rewrite found_bol by reflexivity.
  unfold match_at, session_pat, session_word, digit_run.
  destruct t as [|c0 [|c1 [|c2 [|c3 [|c4 r]]]]]; cbn; case_tests;
    try reflexivity; try newline_digit.
Qed.

(** *** Patterns without anchors: the leftmost match *)

Lemma search_from_first (r : regex) (P : string -> bool) (n : nat) :
  (forall pos s, match_at r pos s = if P s then Some (pos + n)%nat else None) ->
  forall pos s,
    search_from r pos s =
    option_map (fun i => ((pos + i)%nat, (pos + i + n)%nat)) (first_at P s).
Proof.
  intros H pos s. revert pos.
  induction s as [|c s IH]; intros pos; cbn; rewrite H.
  - destruct (P ""); cbn; [now rewrite Nat.add_0_r | reflexivity].
  - destruct (P (String c s)); cbn; [now rewrite Nat.add_0_r|].
    rewrite IH. destruct (first_at P s) as [i|]; cbn; [|reflexivity].
    now rewrite Nat.add_succ_r.
Qed.

Lemma first_at_some (P : string -> bool) (s : string) (i : nat) :
  first_at P s = Some i ->
  (i <= String.length s)%nat /\ P (Str.drop i s) = true
  /\ forall j, (j < i)%nat -> P (Str.drop j s) = false.
Proof.
  revert i. induction s as [|c s IH]; intros i; cbn.
  - destruct (P "") eqn:E; [|discriminate].
    intros [= <-]. repeat split; [lia | exact E | intros j Hj; lia].
  - destruct (P (String c s)) eqn:E.
    + intros [= <-]. repeat split; [lia | exact E | intros j Hj; lia].
    + destruct (first_at P s) as [i'|]; [|discriminate].
      intros [= <-]. destruct (IH i' eq_refl) as (Hl & Hp & Hm).
      repeat split; [lia | exact Hp |].
      intros [|j] Hj; [exact E | apply Hm; lia].
Qed.

Lemma first_at_none (P : string -> bool) (s : string) :
  first_at P s = None -> forall j, (j <= String.length s)%nat -> P (Str.drop j s) = false.
Proof.
  induction s as [|c s IH]; cbn.
  - destruct (P "") eqn:E; [discriminate|]. intros _ [|j] Hj; [exact E | lia].
  - destruct (P (String c s)) eqn:E; [discriminate|].
    destruct (first_at P s); [discriminate|].
    intros _ [|j] Hj; [exact E | apply IH; [reflexivity | lia]].
Qed.

Lemma first_at_least (P : string -> bool) (s : string) (j : nat) :
  (j <= String.length s)%nat -> P (Str.drop j s) = true ->
  exists i, first_at P s = Some i /\ (i <= j)%nat.
Proof.
  intros Hj Hp. destruct (first_at P s) as [i|] eqn:E.
  - exists i. split; [reflexivity|].
    destruct (first_at_some _ _ _ E) as (_ & _ & Hm).
    destruct (Nat.le_gt_cases i j) as [|Hlt]; [assumption|].
    rewrite (Hm j Hlt) in Hp. discriminate.
  - rewrite (first_at_none _ _ E j Hj) in Hp. discriminate.
Qed.

(** What [group] returns for the span found from offset 0. *)
Lemma search_first (r : regex) (P : string -> bool) (n : nat) (s : string) :
  (forall pos t, match_at r pos t = if P t then Some (pos + n)%nat else None) ->
  option_map group (search r s) =
  option_map (fun i => Str.take n (Str.drop i s)) (first_at P s).
Proof.
  intros H. unfold search. rewrite (search_from_first r P n H).
  destruct (first_at P s) as [i|]; cbn; [|reflexivity].
  unfold group; cbn. do 2 f_equal. lia.
Qed.

Section Words.
Variable w : string -> bool.
Variable n : nat.
Hypothesis w_length : forall d, w d = true -> String.length d = n.

Lemma starts_with_app (pre d post : string) :
  w d = true -> starts_with w n (Str.drop (String.length pre) (pre ++ d ++ post)) = true.
Proof.
  intros Hd. unfold starts_with. rewrite drop_app.
  rewrite <- (w_length d Hd), take_app. exact Hd.
Qed.

Lemma starts_with_split (i : nat) (s : string) :
  starts_with w n (Str.drop i s) = true ->
  (i <= String.length s)%nat ->
  s = Str.take i s ++ Str.take n (Str.drop i s) ++ Str.drop n (Str.drop i s)
  /\ String.length (Str.take i s) = i.
Proof.
  intros _ Hi. split; [|now apply length_take].
  now rewrite !take_drop.
Qed.

Lemma first_at_leftmost (s pre d post : string) :
  s = pre ++ d ++ post -> w d = true ->
  (forall pre' d' post', s = pre' ++ d' ++ post' -> w d' = true ->
     (String.length pre <= String.length pre')%nat) ->
  first_at (starts_with w n) s = Some (String.length pre).
Proof.
  intros Hs Hd Hmin.
  destruct (first_at_least (starts_with w n) s (String.length pre))
    as (i & Hi & Hle).
  - subst s. rewrite length_app. lia.
  - subst s. now apply starts_with_app.
  - rewrite Hi. f_equal.
    destruct (first_at_some _ _ _ Hi) as (Hl & Hp & _).
    destruct (starts_with_split i s Hp Hl) as (Hsplit & Hlen).
    specialize (Hmin _ _ _ Hsplit Hp). lia.
Qed.

Lemma first_at_absent (s : string) :
  (forall pre d post, s = pre ++ d ++ post -> w d = false) ->
  first_at (starts_with w n) s = None.
Proof.
  intros Hno. destruct (first_at (starts_with w n) s) as [i|] eqn:E;
    [|reflexivity].
  destruct (first_at_some _ _ _ E) as (Hl & Hp & _).
  destruct (starts_with_split i s Hp Hl) as (Hsplit & _).
  unfold starts_with in Hp. rewrite (Hno _ _ _ Hsplit) in Hp. discriminate.
Qed.

Lemma occurs_iff (s : string) :
  occurs w n s = true <->
  exists pre d post, s = pre ++ d ++ post /\ w d = true.
Proof.
  unfold occurs. split.
  - destruct (first_at (starts_with w n) s) as [i|] eqn:E; [|discriminate].
    intros _. destruct (first_at_some _ _ _ E) as (Hl & Hp & _).
    destruct (starts_with_split i s Hp Hl) as (Hsplit & _).
    eauto.
  - intros (pre & d & post & Hs & Hd).
    destruct (first_at_least (starts_with w n) s (String.length pre))
      as (i & Hi & _).
    + subst s. rewrite length_app. lia.
    + subst s. now apply starts_with_app.
    + now rewrite Hi.
Qed.
End Words.

Lemma digit_run_length (k : nat) (s : string) :
  digit_run k k s = true -> String.length s = k.
Proof.
  unfold digit_run. intros H.
  apply andb_true_iff in H as [H _]. apply andb_true_iff in H as [H1 H2].
  apply Nat.leb_le in H1, H2. lia.
Qed.

Lemma date_word_length (d : string) : date_word d = true -> String.length d = 10%nat.
Proof.
  unfold date_word. intros H. apply andb_true_iff in H as [_ H].
  apply digit_run_length in H. rewrite length_drop in H. lia.
Qed.

Lemma numbered_word_length (c : ascii) (k : nat) (d : string) :
  numbered_word c k d = true -> String.length d = S k.
Proof.
  destruct d as [|x ds]; cbn; [discriminate|].
  intros H. apply andb_true_iff in H as [_ H].
  now rewrite (digit_run_length _ _ H).
Qed.

Lemma match_date_pat (pos : nat) (s : string) :
  match_at date_pat pos s =
  if starts_with date_word 10 s then Some (pos + 10)%nat else None.
Proof.
  unfold match_at, date_pat, starts_with, date_word, digit_run.
  destruct s as [|c0 [|c1 [|c2 [|c3 [|c4 [|c5 [|c6 [|c7 [|c8 [|c9 r]]]]]]]]]];
    cbn; case_tests; try reflexivity.
  all: try (f_equal; lia).
Qed.

Lemma match_fileno_a_pat (pos : nat) (s : string) :
  match_at fileno_a_pat pos s =
  if starts_with (numbered_word "a" 2) 3 s then Some (pos + 3)%nat else None.
Proof.
  unfold match_at, fileno_a_pat, starts_with, numbered_word, digit_run.
  destruct s as [|c0 [|c1 [|c2 r]]]; cbn; case_tests; try reflexivity.
  all: f_equal; lia.
Qed.

Lemma match_fileno_p_pat (pos : nat) (s : string) :
  match_at fileno_p_pat pos s =
  if starts_with (numbered_word "p" 3) 4 s then Some (pos + 4)%nat else None.
Proof.
  unfold match_at, fileno_p_pat, starts_with, numbered_word, digit_run.
  destruct s as [|c0 [|c1 [|c2 [|c3 r]]]]; cbn; case_tests; try reflexivity.
  all: f_equal; lia.
Qed.

Lemma match_split_no_pat (pos : nat) (s : string) :
  match_at split_no_pat pos s =
  if starts_digit s then Some (pos + String.length (digit_prefix s))%nat
  else None.
Proof.
  unfold match_at, split_no_pat, starts_digit, digit_prefix.
  destruct s as [|c0 [|c1 r]]; cbn; case_tests; try reflexivity.
  all: f_equal; lia.
Qed.

Lemma search_from_split_no (pos : nat) (s : string) :
  search_from split_no_pat pos s =
  option_map
    (fun i => ((pos + i)%nat,
               (pos + i + String.length (digit_prefix (Str.drop i s)))%nat))
    (first_at starts_digit s).
Proof.
  revert pos. induction s as [|c s IH]; intros pos.
  - reflexivity.
  - cbn [search_from first_at]. rewrite match_split_no_pat.
    destruct (starts_digit (String c s)); cbn [option_map Str.drop].
    + now rewrite Nat.add_0_r.
    + rewrite IH. destruct (first_at starts_digit s) as [i|]; cbn; [|reflexivity].
      now rewrite Nat.add_succ_r.
Qed.

Lemma take_digit_prefix (s : string) :
  Str.take (String.length (digit_prefix s)) s = digit_prefix s.
Proof.
  destruct s as [|c0 [|c1 r]]; cbn; try reflexivity.
  destruct (Str.is_digit c1); reflexivity.
Qed.

Lemma search_split_no (s : string) :
  option_map group (search split_no_pat s) =
  option_map (fun i => digit_prefix (Str.drop i s)) (first_at starts_digit s).
Proof.
  unfold search. rewrite search_from_split_no.
  destruct (first_at starts_digit s) as [i|]; cbn; [|reflexivity].
  unfold group; cbn. f_equal.
  replace (i + _ - i)%nat with (String.length (digit_prefix (Str.drop i s))) by lia.
  apply take_digit_prefix.
Qed.

Lemma first_at_starts_digit (s : string) :
  is_some (first_at starts_digit s) = Str.has_digit s.
Proof.
  induction s as [|c s IH]; [reflexivity|].
  cbn. destruct (Str.is_digit c); [reflexivity|].
  cbn. rewrite <- IH. now destruct (first_at starts_digit s).
Qed.

Lemma digit_prefix_run (s : string) :
  starts_digit s = true -> digit_run 1 2 (digit_prefix s) = true.
Proof.
  unfold digit_run.
  destruct s as [|c0 [|c1 r]]; cbn; intros H; try discriminate.
  - now rewrite H.
  - destruct (Str.is_digit c1) eqn:E; cbn; now rewrite H, ?E.
Qed.

(** *** Reading digits *)

Lemma digit_val_range (c : ascii) :
  Str.is_digit c = true -> (0 <= Str.digit_val c <= 9)%Z.
Proof.
  unfold Str.is_digit, Str.digit_val. intros H.
  apply andb_true_iff in H as [H1 H2].
  apply Nat.leb_le in H1, H2. lia.
Qed.

Lemma digit_val_inj (a b : ascii) :
  Str.is_digit a = true -> Str.is_digit b = true ->
  Str.digit_val a = Str.digit_val b -> a = b.
Proof.
  unfold Str.digit_val. intros _ _ H.
  rewrite <- (ascii_nat_embedding a), <- (ascii_nat_embedding b).
  f_equal. lia.
Qed.

Lemma int_digit_run (lo hi : nat) (s : string) :
  (1 <= lo)%nat -> digit_run lo hi s = true ->
  Str.int s = inr (Str.digits_val 0 s).
Proof.
  unfold digit_run, Str.int. intros Hlo H.
  apply andb_true_iff in H as [H Hd]. apply andb_true_iff in H as [H1 _].
  apply Nat.leb_le in H1.
  destruct s as [|c s]; [cbn in H1; lia|]. now rewrite Hd.
Qed.

Lemma digits_val_12 (s : string) :
  digit_run 1 2 s = true -> (0 <= Str.digits_val 0 s <= 99)%Z.
Proof.
  unfold digit_run.
  destruct s as [|c0 [|c1 [|c2 r]]]; cbn; try discriminate.
  - rewrite andb_true_r. intros H. pose proof (digit_val_range _ H). lia.
  - rewrite andb_true_r. intros H. apply andb_true_iff in H as [H0 H1].
    pose proof (digit_val_range _ H0). pose proof (digit_val_range _ H1). lia.
Qed.

End ReFacts.

(** ** The extractors, without the matcher *)

Module Extract.

Import StrFacts ReFacts.

Lemma get_date_eq (file : Path) :
  get_date file =
  match first_at (starts_with date_word 10) (name file) with
  | Some i => inr (Str.take 10 (Str.drop i (name file)))
  | None => inl no_date
  end.
Proof.
  unfold get_date.
  pose proof (search_first date_pat _ 10 (name file) match_date_pat) as H.
  destruct (search date_pat (name file)), (first_at _ (name file));
    cbn in H; try discriminate H; [|reflexivity].
  injection H as ->. reflexivity.
Qed.

Lemma search_group_eq (r : regex) (w : string -> bool) (n : nat) (s : string) :
  (forall pos t, match_at r pos t
     = if starts_with w n t then Some (pos + n)%nat else None) ->
  search_group r s =
  match first_at (starts_with w n) s with
  | Some i => inr (Str.take n (Str.drop i s))
  | None => inl no_group
  end.
Proof.
  intros Hm. unfold search_group.
  pose proof (search_first r _ n s Hm) as H.
  destruct (search r s), (first_at _ s); cbn in H; try discriminate H;
    [|reflexivity].
  injection H as ->. reflexivity.
Qed.

(** The number a word "c" + [k] digits carries. *)
Lemma int_numbered_word (c : ascii) (k : nat) (w : string) :
  (1 <= k)%nat -> numbered_word c k w = true ->
  Str.int (Str.last_n k w) = inr (Str.digits_val 0 (Str.drop 1 w)).
Proof.
  intros Hk Hw. pose proof (numbered_word_length _ _ _ Hw) as Hlen.
  unfold Str.last_n. rewrite Hlen.
  replace (S k - k)%nat with 1%nat by lia.
  destruct w as [|x ds]; [discriminate|]. cbn in Hw |- *.
  apply andb_true_iff in Hw as [_ Hw].
  now apply (int_digit_run k k).
Qed.

Lemma get_fileno_eq (r : regex) (c : ascii) (k : nat) (s : string) :
  (1 <= k)%nat ->
  (forall pos t, match_at r pos t
     = if starts_with (numbered_word c k) (S k) t then Some (pos + S k)%nat else None) ->
  (no <- search_group r s ;; Str.int (Str.last_n k no)) =
  match first_at (starts_with (numbered_word c k) (S k)) s with
  | Some i => inr (Str.digits_val 0 (Str.drop 1 (Str.take (S k) (Str.drop i s))))
  | None => inl no_group
  end.
Proof.
  intros Hk Hm. rewrite (search_group_eq r _ (S k) s Hm).
  destruct (first_at _ s) as [i|] eqn:E; [|reflexivity].
  destruct (first_at_some _ _ _ E) as (_ & Hp & _).
  unfold bind. now apply (int_numbered_word c).
Qed.

Lemma get_split_no_eq (file : Path) :
  get_split_no file =
  match first_at starts_digit (last_token file) with
  | Some i => inr (Str.digits_val 0 (digit_prefix (Str.drop i (last_token file))))
  | None => inl no_group
  end.
Proof.
  unfold get_split_no, search_group.
  pose proof (search_split_no (last_token file)) as H.
  destruct (search split_no_pat (last_token file)),
    (first_at starts_digit (last_token file)) as [i|] eqn:E;
    cbn in H; try discriminate H; [|reflexivity].
  injection H as ->. unfold bind, ret.
  destruct (first_at_some _ _ _ E) as (_ & Hp & _).
  apply (int_digit_run 1 2); [lia | now apply digit_prefix_run].
Qed.

Lemma get_split_no_range (file : Path) (n : Z) :
  get_split_no file = inr n -> (0 <= n <= 99)%Z.
Proof.
  rewrite get_split_no_eq.
  destruct (first_at starts_digit (last_token file)) as [i|] eqn:E;
    [|discriminate].
  intros [= <-]. destruct (first_at_some _ _ _ E) as (_ & Hp & _).
  apply digits_val_12. now apply digit_prefix_run.
Qed.

Lemma get_split_no_no_digit (file : Path) :
  Str.has_digit (last_token file) = false -> get_split_no file = inl no_group.
Proof.
  intros H. rewrite get_split_no_eq.
  rewrite <- first_at_starts_digit in H.
  now destruct (first_at starts_digit (last_token file)).
Qed.

Lemma chomp_digits (s : string) : Str.all_digits s = true -> chomp s = s.
Proof.
  induction s as [|c s IH]; [reflexivity|].
  cbn [Str.all_digits]. intros H. apply andb_true_iff in H as [Hc Hs].
  destruct s as [|c' s].
  - cbn. destruct (Ascii.eqb c Str.newline) eqn:E; [|reflexivity].
    rewrite (newline_not_digit _ E) in Hc. discriminate.
  - change (chomp (String c (String c' s))) with (String c (chomp (String c' s))).
    now rewrite IH.
Qed.

Lemma split_word_chomp (t : string) :
  split_word t = true -> split_word (chomp t) = true.
Proof.
  unfold split_word. rewrite chomp_strip by reflexivity.
  destruct (strip_prefix "split" t) as [ds|]; [|discriminate].
  cbn. intros H. rewrite chomp_digits; [exact H|].
  unfold digit_run in H. now apply andb_true_iff in H as [_ H].
Qed.

Lemma session_word_chomp (t : string) :
  session_word t = true -> chomp t = t.
Proof.
  destruct t as [|c ds]; [discriminate|]. cbn [session_word].
  intros H. apply andb_true_iff in H as [_ H].
  pose proof (digit_run_length _ _ H) as Hl.
  unfold digit_run in H. apply andb_true_iff in H as [_ H].
  destruct ds as [|d1 ds]; [discriminate|].
  change (chomp (String c (String d1 ds))) with (String c (chomp (String d1 ds))).
  now rewrite chomp_digits.
Qed.

Lemma is_split_iff (file : Path) :
  is_split file = true <->
  exists t, In t (tokens file) /\ split_word (chomp t) = true.
Proof.
  unfold is_split. rewrite existsb_exists.
  split; intros (t & Hin & Ht); exists t; split; trivial;
    now rewrite found_split_pat in *.
Qed.

Lemma get_session_no_loop_first (before after : list string) (t : string) :
  session_word (chomp t) = true ->
  (forall u, In u before -> session_word (chomp u) = false) ->
  get_session_no_loop (before ++ t :: after) = Some ("a" ++ Str.last_n 2 t).
Proof.
  intros Ht. induction before as [|u before IH]; intros Hb; cbn.
  - now rewrite found_session_pat, Ht.
  - rewrite found_session_pat, (Hb u) by now left.
    apply IH. intros v Hv. apply Hb. now right.
Qed.

Lemma get_session_no_loop_none (l : list string) :
  (forall u, In u l -> session_word (chomp u) = false) ->
  get_session_no_loop l = None.
Proof.
  induction l as [|u l IH]; intros H; cbn; [reflexivity|].
  rewrite found_session_pat, (H u) by now left.
  apply IH. intros v Hv. apply H. now right.
Qed.

Section WordSearch.
Variable w : string -> bool.
Variable n : nat.
Hypothesis w_length : forall d, w d = true -> String.length d = n.

Lemma first_at_of_leftmost (s pre d post : string) :
  leftmost w s pre d post ->
  first_at (starts_with w n) s = Some (String.length pre)
  /\ Str.take n (Str.drop (String.length pre) s) = d.
Proof.
  intros (Hs & Hd & Hmin). split.
  - now apply (first_at_leftmost w n w_length s pre d post).
  - subst s. rewrite drop_app, <- (w_length d Hd). apply take_app.
Qed.

Lemma leftmost_of_first_at (s : string) (i : nat) :
  first_at (starts_with w n) s = Some i ->
  leftmost w s (Str.take i s) (Str.take n (Str.drop i s))
    (Str.drop n (Str.drop i s)).
Proof.
  intros E. destruct (first_at_some _ _ _ E) as (Hl & Hp & Hm).
  destruct (starts_with_split w n i s Hp Hl) as (Hsplit & Hlen).
  repeat split; [exact Hsplit | exact Hp |].
  intros pre' d' post' Hs' Hd'. rewrite Hlen.
  destruct (Nat.le_gt_cases i (String.length pre')) as [|Hlt]; [assumption|].
  specialize (Hm _ Hlt).
  rewrite Hs' in Hm at 1.
  rewrite (starts_with_app w n w_length pre' d' post' Hd') in Hm. discriminate.
Qed.

Lemma absent_iff (s : string) :
  absent w s <-> first_at (starts_with w n) s = None.
Proof.
  split.
  - apply (first_at_absent w n).
  - intros E pre d post Hs. destruct (w d) eqn:Hd; [|reflexivity].
    assert (H : occurs w n s = true)
      by (apply (occurs_iff w n w_length); eauto).
    unfold occurs in H. rewrite E in H. discriminate.
Qed.
End WordSearch.

Import Datetime.

Lemma strptime_error (s : string) (e : exn) :
  Datetime.strptime s = inl e -> exists msg, e = ValueError msg.
Proof.
  unfold Datetime.strptime, Datetime.no_match, Datetime.out_of_range, raise, ret.
  repeat match goal with
  | |- context [match ?x with EmptyString => _ | String _ _ => _ end] =>
      destruct x
  | |- context [if ?b then _ else _] => destruct b
  end; intros [= <-]; eauto.
Qed.

Lemma get_date_error (file : Path) (e : exn) :
  get_date file = inl e -> e = no_date.
Proof.
  rewrite get_date_eq. destruct (first_at _ (name file)); congruence.
Qed.

Lemma get_split_no_error (file : Path) (e : exn) :
  get_split_no file = inl e -> e = no_group.
Proof.
  rewrite get_split_no_eq. destruct (first_at _ (last_token file)); congruence.
Qed.

Lemma too_large_not_raised (mktime : Datetime.datetime -> Z) (file : Path) :
  get_split_num_id mktime file <> inl too_large.
Proof.
  unfold get_split_num_id, bind.
  destruct (get_date file) as [e1|d] eqn:E1.
  { apply get_date_error in E1. subst e1. discriminate. }
  destruct (Datetime.strptime d) as [e2|dt] eqn:E2.
  { apply strptime_error in E2 as (msg & ->). discriminate. }
  destruct (get_split_no file) as [e3|sn] eqn:E3.
  { apply get_split_no_error in E3. subst e3. discriminate. }
  apply get_split_no_range in E3.
  destruct (100 <=? sn)%Z eqn:L; [apply Z.leb_le in L; lia | discriminate].
Qed.

Lemma strptime_shape (s : string) (dt : datetime) :
  strptime s = inr dt ->
  exists y1 y2 y3 y4 m1 m2 d1 d2,
    s = String y1 (String y2 (String y3 (String y4 (String "-"
          (String m1 (String m2 (String "-" (String d1 (String d2 "")))))))))
    /\ Str.all_digits (String y1 (String y2 (String y3 (String y4
          (String m1 (String m2 (String d1 (String d2 "")))))))) = true
    /\ year dt = Str.digits_val 0 (String y1 (String y2 (String y3 (String y4 ""))))
    /\ month dt = Str.digits_val 0 (String m1 (String m2 ""))
    /\ day dt = Str.digits_val 0 (String d1 (String d2 "")).
Proof.
  unfold strptime, no_match, out_of_range, raise, ret.
  destruct s as [|y1 [|y2 [|y3 [|y4 [|h1 [|m1 [|m2 [|h2 [|d1 [|d2 [|x r]]]]]]]]]]];
    try discriminate.
  destruct (Str.all_digits _ && Ascii.eqb h1 "-" && Ascii.eqb h2 "-") eqn:E;
    [|discriminate].
  apply andb_true_iff in E as [E E2]. apply andb_true_iff in E as [E E1].
  apply Ascii.eqb_eq in E1, E2. subst h1 h2.
  match goal with |- context [if ?b then _ else _] => destruct b end;
    [|discriminate].
  match goal with |- context [if ?b then _ else _] => destruct b end;
    [|discriminate].
  intros [= <-]. do 8 eexists. repeat split. exact E.
Qed.

Lemma digits_val_2_inj (a b a' b' : ascii) :
  Str.all_digits (String a (String b "")) = true ->
  Str.all_digits (String a' (String b' "")) = true ->
  Str.digits_val 0 (String a (String b ""))
  = Str.digits_val 0 (String a' (String b' "")) ->
  a = a' /\ b = b'.
Proof.
  cbn. rewrite !andb_true_r. intros H H' E.
  apply andb_true_iff in H as [Ha Hb]. apply andb_true_iff in H' as [Ha' Hb'].
  pose proof (digit_val_range _ Ha). pose proof (digit_val_range _ Hb).
  pose proof (digit_val_range _ Ha'). pose proof (digit_val_range _ Hb').
  split; apply digit_val_inj; trivial; lia.
Qed.

Lemma digits_val_4_inj (a b c d a' b' c' d' : ascii) :
  Str.all_digits (String a (String b (String c (String d "")))) = true ->
  Str.all_digits (String a' (String b' (String c' (String d' "")))) = true ->
  Str.digits_val 0 (String a (String b (String c (String d ""))))
  = Str.digits_val 0 (String a' (String b' (String c' (String d' "")))) ->
  a = a' /\ b = b' /\ c = c' /\ d = d'.
Proof.
  cbn. rewrite !andb_true_r. intros H H' E.
  apply andb_true_iff in H as [Ha H]. apply andb_true_iff in H as [Hb H].
  apply andb_true_iff in H as [Hc Hd].
  apply andb_true_iff in H' as [Ha' H']. apply andb_true_iff in H' as [Hb' H'].
  apply andb_true_iff in H' as [Hc' Hd'].
  pose proof (digit_val_range _ Ha). pose proof (digit_val_range _ Hb).
  pose proof (digit_val_range _ Hc). pose proof (digit_val_range _ Hd).
  pose proof (digit_val_range _ Ha'). pose proof (digit_val_range _ Hb').
  pose proof (digit_val_range _ Hc'). pose proof (digit_val_range _ Hd').
  repeat split; apply digit_val_inj; trivial; lia.
Qed.

Ltac digits_known :=
  cbn [Str.all_digits];
  repeat match goal with
         | H : Str.is_digit ?c = true |- context [Str.is_digit ?c] => rewrite H
         end;
  reflexivity.

(** Two strings that [strptime] reads as the same date are the same. *)
Lemma strptime_inj (s s' : string) (dt : datetime) :
  strptime s = inr dt -> strptime s' = inr dt -> s = s'.
Proof.
  intros H H'.
  apply strptime_shape in H as (y1 & y2 & y3 & y4 & m1 & m2 & d1 & d2
                                & -> & Hd & Hy & Hm & Hda).
  apply strptime_shape in H' as (z1 & z2 & z3 & z4 & n1 & n2 & e1 & e2
                                 & -> & Hd' & Hy' & Hm' & Hda').
  rewrite Hy in Hy'. rewrite Hm in Hm'. rewrite Hda in Hda'.
  cbn [Str.all_digits] in Hd, Hd'. rewrite !andb_true_r in Hd, Hd'.
  repeat match goal with
         | H : _ && _ = true |- _ => apply andb_true_iff in H as [? H]
         end.
  destruct (digits_val_4_inj y1 y2 y3 y4 z1 z2 z3 z4) as (-> & -> & -> & ->).
  1, 2: digits_known.
  1: exact Hy'.
  destruct (digits_val_2_inj m1 m2 n1 n2) as (-> & ->).
  1, 2: digits_known.
  1: exact Hm'.
  destruct (digits_val_2_inj d1 d2 e1 e2) as (-> & ->).
  1, 2: digits_known.
  1: exact Hda'.
  reflexivity.
Qed.

Section SplitNumIdFacts.
Variable mktime : datetime -> Z.

Lemma get_split_num_id_eq (file : Path) (d : string) (dt : datetime) (n : Z) :
  get_date file = inr d -> strptime d = inr dt -> get_split_no file = inr n ->
  get_split_num_id mktime file = inr (mktime dt * 100 + n)%Z.
Proof.
  intros Hd Hp Hn. unfold get_split_num_id, bind. rewrite Hd, Hp, Hn.
  apply get_split_no_range in Hn.
  destruct (100 <=? n)%Z eqn:L; [apply Z.leb_le in L; lia | reflexivity].
Qed.
End SplitNumIdFacts.

Ltac eval_tokens :=
  repeat match goal with
  | |- context [tokens ?f] =>
      let v := eval vm_compute in (tokens f) in change (tokens f) with v
  | H : context [tokens ?f] |- _ =>
      let v := eval vm_compute in (tokens f) in change (tokens f) with v in H
  end.

Ltac suffix_cases path :=
  unfold supported, get_type, is_valid_midi, is_valid_flac, is_valid_video,
    is_valid_audio, is_full_video, is_full_audio, bind, ret, raise in *;
  destruct (String.eqb (suffix path) ".mid") eqn:Emid;
  [apply String.eqb_eq in Emid; rewrite ?Emid in *|];
  (destruct (String.eqb (suffix path) ".flac") eqn:Eflac;
   [apply String.eqb_eq in Eflac; rewrite ?Eflac in *|]);
  (destruct (String.eqb (suffix path) ".mp4") eqn:Emp4;
   [apply String.eqb_eq in Emp4; rewrite ?Emp4 in *|]);
  (destruct (String.eqb (suffix path) ".aac") eqn:Eaac;
   [apply String.eqb_eq in Eaac; rewrite ?Eaac in *|]);
  try discriminate;
  rewrite ?String.eqb_neq in *.

End Extract.
Import Datetime StrFacts ReFacts Extract.

(** * The claims *)

(** C1.  The docstring of [get_split_num_id] promises an error for a split
    larger than 99, and the function guards it with [split_no >= 100].  On
    a file whose last token is split100 the guard is not reached with 100:
    [get_split_no] reads the first two digits, 10, no error is raised, and
    the file is given the id of split 10 of the same date. *)
Theorem C1_split100_is_given_an_id (mktime : Datetime.datetime -> Z) :
  let file := of_string "rach3_2023-05-01_split100.flac" in
  get_split_no file = inr 10%Z
  /\ get_split_num_id mktime file
     = inr (mktime (Datetime.mkDate 2023 5 1) * 100 + 10)%Z
  /\ get_split_num_id mktime file
     = get_split_num_id mktime (of_string "rach3_2023-05-01_split10.flac").
Proof.
  split; [|split]; vm_compute; reflexivity.
Qed.

(** C2, amended.  [get_type] returns no tag for every path whose extension
    is not .mid, .flac, .mp4 or .aac; it returns (a tag or no tag) without
    raising for every path whose last stem token is not empty; the only
    exception it raises is the IndexError of indexing an empty string; and
    it raises exactly when the last stem token is empty and the extension
    is .mid, or .flac, or .mp4 with no token "trimmed", or .aac with no
    token "full". *)
Theorem C2_get_type_raises (path : Path) :
  (supported (suffix path) = false -> get_type path = inr None)
  /\ (last_token path <> "" -> exists r, get_type path = inr r)
  /\ (forall e, get_type path = inl e -> e = Str.index_error)
  /\ (raises (get_type path) = true <->
      last_token path = ""
      /\ (suffix path = ".mid" \/ suffix path = ".flac"
          \/ (suffix path = ".mp4" /\ is_trimmed path = false)
          \/ (suffix path = ".aac" /\ Str.mem "full" (tokens path) = false))).
Proof.
  split; [|split; [|split; [|split]]].
  - intros H. suffix_cases path. reflexivity.
  - intros H. suffix_cases path; cbn;
      destruct (last_token path) as [|c t]; try (now exfalso); cbn;
      repeat match goal with
             | |- context [if ?b then _ else _] => destruct b
             end; eauto.
  - intros e. suffix_cases path; cbn;
      destruct (last_token path) as [|c t]; cbn;
      repeat match goal with
             | |- context [if ?b then _ else _] => destruct b
             end; intros [= <-]; reflexivity.
  - suffix_cases path; cbn;
      destruct (last_token path) as [|c t]; cbn;
      destruct (is_trimmed path), (Str.mem "full" (tokens path)); cbn;
      repeat match goal with
             | |- context [if ?b then _ else _] => destruct b
             end; cbn; intros H; try discriminate H; intuition congruence.
  - suffix_cases path; cbn;
      destruct (last_token path) as [|c t]; cbn;
      destruct (is_trimmed path), (Str.mem "full" (tokens path)); cbn;
      repeat match goal with
             | |- context [if ?b then _ else _] => destruct b
             end; cbn; intros H; try reflexivity;
      exfalso; intuition congruence.
Qed.

Lemma C2_get_type_raises_witness :
  get_type (of_string "notes.txt") = inr None
  /\ (exists r, get_type (of_string "session_split3.flac") = inr r)
  /\ raises (get_type (of_string "rach3_.aac")) = true.
Proof.
  split; [|split].
  - apply (proj1 (C2_get_type_raises (of_string "notes.txt"))).
    vm_compute. reflexivity.
  - apply (proj1 (proj2 (C2_get_type_raises (of_string "session_split3.flac")))).
    vm_compute. discriminate.
  - apply (proj2 (proj2 (proj2 (C2_get_type_raises (of_string "rach3_.aac"))))).
    vm_compute. split; [reflexivity|]. right; right; right. split; reflexivity.
Defined.

(** C2 as stated fails: rach3_.mid has the extension .mid and an empty last
    token, and [get_type] raises IndexError on it. *)
Lemma C2_counterexample :
  suffix (of_string "rach3_.mid") = ".mid"
  /\ last_token (of_string "rach3_.mid") = ""
  /\ get_type (of_string "rach3_.mid") = inl Str.index_error.
Proof.
  split; [|split]; vm_compute; reflexivity.
Qed.

(** C3.  For every .mp4 path on which [is_trimmed] and [is_full_video] both
    return true, [get_type] returns trimmed_video and not full_video; and
    on every .mp4 path [get_type] is the first-match dispatch over
    [is_trimmed], [is_full_video], [is_valid_video], [is_split], in that
    order, with the tags trimmed_video, full_video, video, split_video. *)
Theorem C3_mp4_priority (path : Path) :
  suffix path = ".mp4" ->
  (is_trimmed path = true -> is_full_video path = true ->
   get_type path = inr (Some trimmed_video)
   /\ get_type path <> inr (Some full_video))
  /\ get_type path =
     first_match [ (ret (is_trimmed path), trimmed_video);
                   (ret (is_full_video path), full_video);
                   (is_valid_video path, video);
                   (ret (is_split path), split_video) ].
Proof.
  intros Hs. unfold get_type. rewrite Hs.
  change (String.eqb ".mp4" ".mid") with false.
  change (String.eqb ".mp4" ".flac") with false.
  change (String.eqb ".mp4" ".mp4") with true.
  cbv iota. split.
  - intros -> _. split; [reflexivity | discriminate].
  - cbn [first_match]. unfold bind, ret.
    destruct (is_trimmed path); [reflexivity|].
    destruct (is_full_video path); [reflexivity|].
    destruct (is_valid_video path) as [e|[|]]; reflexivity.
Qed.

Lemma C3_mp4_priority_witness :
  is_trimmed (of_string "rach3_trimmed_full.mp4") = true
  /\ is_full_video (of_string "rach3_trimmed_full.mp4") = true
  /\ get_type (of_string "rach3_trimmed_full.mp4") = inr (Some trimmed_video).
Proof.
  split; [vm_compute; reflexivity|]. split; [vm_compute; reflexivity|].
  apply (proj1 (C3_mp4_priority (of_string "rach3_trimmed_full.mp4") eq_refl));
    vm_compute; reflexivity.
Defined.

(** What [get_session_no] computes.  Call a token a session token when,
    once a newline that ends it is removed, it is "a" or "v" followed by
    two digits.  For every file whose stem has a session token the result
    is "a" followed by the last two characters of the first one; these are
    its two digits when the token has no final newline (X_a07.ext and
    X_v07.ext both give "a07").  For every file with no session token the
    result is [None]. *)
Lemma get_session_no_first_match (file : Path) :
  (forall before t after,
     tokens file = (before ++ t :: after)%list ->
     session_word (chomp t) = true ->
     (forall u, In u before -> session_word (chomp u) = false) ->
     get_session_no file = Some ("a" ++ Str.last_n 2 t))
  /\ (forall before t after,
       tokens file = (before ++ t :: after)%list ->
       session_word t = true ->
       (forall u, In u before -> session_word (chomp u) = false) ->
       get_session_no file = Some ("a" ++ Str.drop 1 t)
       /\ digit_run 2 2 (Str.drop 1 t) = true)
  /\ ((forall u, In u (tokens file) -> session_word (chomp u) = false) ->
      get_session_no file = None).
Proof.
  split; [|split].
  - intros before t after Htok Ht Hb.
    unfold get_session_no. rewrite Htok.
    now apply get_session_no_loop_first.
  - intros before t after Htok Ht Hb.
    unfold get_session_no. rewrite Htok.
    rewrite get_session_no_loop_first;
      [| now rewrite (session_word_chomp t Ht) | exact Hb].
    destruct t as [|c ds]; [discriminate|].
    cbn [session_word] in Ht. apply andb_true_iff in Ht as [_ Ht].
    pose proof (digit_run_length _ _ Ht) as Hl.
    split; [|exact Ht].
    unfold Str.last_n. cbn [String.length]. rewrite Hl. reflexivity.
  - intros H. now apply get_session_no_loop_none.
Qed.

Lemma get_session_no_first_match_examples :
  get_session_no (of_string "X_a07.flac") = Some "a07"
  /\ get_session_no (of_string "X_v07.mp4") = Some "a07"
  /\ get_session_no (of_string "X_y.mp4") = None.
Proof.
  split; [|split].
  - apply (proj1 (proj2 (get_session_no_first_match (of_string "X_a07.flac")))
             ["X"] "a07" []);
      [vm_compute; reflexivity | vm_compute; reflexivity |].
    intros u [<-|[]]; vm_compute; reflexivity.
  - apply (proj1 (get_session_no_first_match (of_string "X_v07.mp4")) ["X"] "v07" []);
      [vm_compute; reflexivity | vm_compute; reflexivity |].
    intros u [<-|[]]; vm_compute; reflexivity.
  - apply (proj2 (proj2 (get_session_no_first_match (of_string "X_y.mp4")))).
    eval_tokens. intros u [<-|[<-|[]]]; vm_compute; reflexivity.
Defined.

(** C4.  The docstring of [get_session_no] promises the format aXX, and
    the code builds its result as "a" followed by the last two characters
    of a token it has matched against two digits and the end.  On
    "x_a07\n.mid" the tokens are "x" and "a07\n"; [$] accepts the newline
    that ends the second one, and the result is "a7\n": the letter is
    followed by one digit and a newline, not by the two digits 07, and the
    result is not [None] either. *)
Theorem C4_newline_token_breaks_format :
  tokens (of_string ("x_a07" ++ String Str.newline ".mid"))
  = ["x"; "a07" ++ String Str.newline ""]
  /\ found session_pat ("a07" ++ String Str.newline "") = true
  /\ existsb session_word
       (tokens (of_string ("x_a07" ++ String Str.newline ".mid"))) = false
  /\ get_session_no (of_string ("x_a07" ++ String Str.newline ".mid"))
     = Some ("a7" ++ String Str.newline "")
  /\ digit_run 2 2 (Str.drop 1 ("a7" ++ String Str.newline "")) = false
  /\ get_session_no (of_string "x_a07.mid") = Some "a07".
Proof.
  repeat (split; [vm_compute; reflexivity|]). vm_compute. reflexivity.
Qed.

(** C5, amended.  For every file whose name contains a word of the shape
    dddd-dd-dd, each d one of the ten digits 0..9 of the code's class
    [[0-9]], [get_date] returns such a word of the name, the leftmost one
    (so a date embedded in a name is returned verbatim when no other such
    word starts before it); for every file whose name contains none,
    [get_date] raises IdentityError. *)
Theorem C5_get_date (file : Path) :
  (forall pre d post,
     leftmost date_word (name file) pre d post -> get_date file = inr d)
  /\ ((exists pre d post, name file = pre ++ d ++ post /\ date_word d = true) ->
      exists pre d post,
        leftmost date_word (name file) pre d post /\ get_date file = inr d)
  /\ (absent date_word (name file) -> get_date file = inl no_date).
Proof.
  split; [|split].
  - intros pre d post H. rewrite get_date_eq.
    destruct (first_at_of_leftmost _ 10 date_word_length _ _ _ _ H) as (-> & ->).
    reflexivity.
  - intros H. apply (occurs_iff _ 10 date_word_length) in H.
    unfold occurs in H.
    destruct (first_at (starts_with date_word 10) (name file)) as [i|] eqn:E;
      [|discriminate].
    do 3 eexists. split.
    + apply (leftmost_of_first_at _ 10 date_word_length _ _ E).
    + rewrite get_date_eq, E. reflexivity.
  - intros H. apply (absent_iff _ 10 date_word_length) in H.
    now rewrite get_date_eq, H.
Qed.

Lemma C5_get_date_witness :
  get_date (of_string "rach3_2023-05-01_a01.mid") = inr "2023-05-01".
Proof.
  apply (proj1 (C5_get_date (of_string "rach3_2023-05-01_a01.mid"))
           "rach3_" "2023-05-01" "_a01.mid").
  exact (leftmost_of_first_at date_word 10 date_word_length
           (name (of_string "rach3_2023-05-01_a01.mid")) 6 eq_refl).
Defined.

(** C5 as stated fails: the name x1111-11-2023-05-01.mid contains the
    date 2023-05-01, and what [get_date] returns is 1111-11-20, the word of
    that shape which starts further left. *)
Lemma C5_counterexample :
  name (of_string "x1111-11-2023-05-01.mid")
  = "x1111-11-" ++ "2023-05-01" ++ ".mid"
  /\ date_word "2023-05-01" = true
  /\ get_date (of_string "x1111-11-2023-05-01.mid") = inr "1111-11-20".
Proof.
  split; [|split]; vm_compute; reflexivity.
Qed.

(** C6, amended.  For every file on which [get_date] and [get_split_no]
    succeed and whose date string [strptime] accepts as a calendar date,
    [get_split_num_id] returns the epoch seconds of that date times 100
    plus the split number; the split number is in 0..99 and is the id
    modulo 100; and for two such files whose dates [mktime] does not send
    to the same epoch seconds unless they are equal, the ids are equal if
    and only if the date strings and the split numbers are. *)
Theorem C6_split_num_id (mktime : datetime -> Z) (f1 f2 : Path)
    (d1 d2 : string) (dt1 dt2 : datetime) (n1 n2 : Z) :
  get_date f1 = inr d1 -> strptime d1 = inr dt1 -> get_split_no f1 = inr n1 ->
  get_date f2 = inr d2 -> strptime d2 = inr dt2 -> get_split_no f2 = inr n2 ->
  get_split_num_id mktime f1 = inr (mktime dt1 * 100 + n1)%Z
  /\ (0 <= n1 <= 99)%Z
  /\ ((mktime dt1 * 100 + n1) mod 100 = n1)%Z
  /\ ((mktime dt1 = mktime dt2 -> dt1 = dt2) ->
      (get_split_num_id mktime f1 = get_split_num_id mktime f2
       <-> d1 = d2 /\ n1 = n2)).
Proof.
  intros Hd1 Hp1 Hn1 Hd2 Hp2 Hn2.
  pose proof (get_split_no_range _ _ Hn1) as R1.
  pose proof (get_split_no_range _ _ Hn2) as R2.
  rewrite (get_split_num_id_eq mktime f1 d1 dt1 n1),
          (get_split_num_id_eq mktime f2 d2 dt2 n2) by assumption.
  split; [reflexivity|]. split; [exact R1|]. split.
  - rewrite Z.add_comm, Z_mod_plus_full. apply Z.mod_small. lia.
  - intros Hinj. split.
    + intros [= E].
      assert (Hm : mktime dt1 = mktime dt2) by lia.
      specialize (Hinj Hm). subst dt2.
      split; [exact (strptime_inj _ _ _ Hp1 Hp2) | lia].
    + intros [-> ->]. rewrite Hp1 in Hp2. injection Hp2 as ->. reflexivity.
Qed.

Lemma C6_split_num_id_witness :
  get_split_num_id utc_mktime (of_string "rach3_2023-05-01_split3.flac")
  = inr 168289920003%Z
  /\ (168289920003 mod 100 = 3)%Z
  /\ (get_split_num_id utc_mktime (of_string "rach3_2023-05-01_split3.flac")
      = get_split_num_id utc_mktime (of_string "rach3_2023-05-02_split3.flac")
      <-> "2023-05-01" = "2023-05-02" /\ 3%Z = 3%Z).
Proof.
  destruct (C6_split_num_id utc_mktime
              (of_string "rach3_2023-05-01_split3.flac")
              (of_string "rach3_2023-05-02_split3.flac")
              "2023-05-01" "2023-05-02"
              (mkDate 2023 5 1) (mkDate 2023 5 2) 3 3
              eq_refl eq_refl eq_refl eq_refl eq_refl eq_refl)
    as (H1 & _ & H3 & H4).
  split; [exact H1|]. split; [exact H3|].
  apply H4. vm_compute. discriminate.
Defined.

(** C6 as stated fails: on rach3_2023-13-01_split3.flac [get_date] returns
    "2023-13-01" and [get_split_no] returns 3, but there is no month 13:
    [strptime] raises ValueError and no id is returned. *)
Lemma C6_counterexample :
  get_date (of_string "rach3_2023-13-01_split3.flac") = inr "2023-13-01"
  /\ get_split_no (of_string "rach3_2023-13-01_split3.flac") = inr 3%Z
  /\ (forall mktime,
        get_split_num_id mktime (of_string "rach3_2023-13-01_split3.flac")
        = inl no_match).
Proof.
  split; [|split]; try intros mktime; vm_compute; reflexivity.
Qed.

(** C7, amended.  For every file, [is_split] returns true if and only if
    at least one stem token, once a newline that ends it is removed, is
    "split" followed by one or two digits; when no token ends in a newline
    this is: at least one token is "split" followed by one or two digits.
    It is true when split7 or split23 is a token, and false when every
    token is split100 or not of that shape. *)
Theorem C7_is_split_tokens (file : Path) :
  (is_split file = true <->
   exists t, In t (tokens file) /\ split_word (chomp t) = true)
  /\ ((forall t, In t (tokens file) -> chomp t = t) ->
      (is_split file = true <->
       exists t, In t (tokens file) /\ split_word t = true))
  /\ (In "split7" (tokens file) \/ In "split23" (tokens file) ->
      is_split file = true)
  /\ ((forall t, In t (tokens file) ->
         t = "split100" \/ split_word (chomp t) = false) ->
      is_split file = false).
Proof.
  split; [|split; [|split]].
  - apply is_split_iff.
  - intros H. rewrite is_split_iff.
    split; intros (t & Hin & Ht); exists t; (split; [exact Hin|]).
    + now rewrite <- (H t Hin).
    + now rewrite (H t Hin).
  - intros [H|H]; apply is_split_iff; eexists; (split; [exact H | reflexivity]).
  - intros H. destruct (is_split file) eqn:E; [|reflexivity].
    apply is_split_iff in E as (t & Hin & Ht).
    destruct (H t Hin) as [->|Hn]; [discriminate Ht | congruence].
Qed.

Lemma C7_is_split_tokens_witness :
  is_split (of_string "session_split23_x.flac") = true
  /\ is_split (of_string "session_split100.flac") = false.
Proof.
  split.
  - apply (proj1 (proj2 (proj2 (C7_is_split_tokens (of_string "session_split23_x.flac"))))).
    right. eval_tokens. right; left; reflexivity.
  - apply (proj2 (proj2 (proj2 (C7_is_split_tokens (of_string "session_split100.flac"))))).
    eval_tokens. intros t [<-|[<-|[]]]; [right; reflexivity | left; reflexivity].
Defined.

(** C7 as stated fails: the stem of "x_split7\n.flac" has the tokens "x"
    and "split7\n"; neither is "split" followed by one or two digits and
    nothing else, yet [is_split] returns true. *)
Lemma C7_counterexample :
  tokens (of_string ("x_split7" ++ String Str.newline ".flac"))
  = ["x"; "split7" ++ String Str.newline ""]
  /\ existsb split_word
       (tokens (of_string ("x_split7" ++ String Str.newline ".flac"))) = false
  /\ is_split (of_string ("x_split7" ++ String Str.newline ".flac")) = true.
Proof.
  split; [|split]; vm_compute; reflexivity.
Qed.

(** What [get_fileno_a] and [get_fileno_p] compute.  [get_fileno_a]
    searches the whole path string
    [str(file)], directories included, for the leftmost "a" followed by two
    digits and returns the two digits as an integer; [get_fileno_p] does
    the same for "p" followed by three digits; each raises the
    AttributeError of the failed search exactly when the path string
    contains no such word. *)
Lemma get_fileno_searches_path_string (file : Path) :
  ((forall pre w post,
      leftmost (numbered_word "a" 2) (str file) pre w post ->
      get_fileno_a file = inr (Str.digits_val 0 (Str.drop 1 w)))
   /\ (get_fileno_a file = inl no_group <->
       absent (numbered_word "a" 2) (str file))
   /\ (raises (get_fileno_a file) = true <->
       absent (numbered_word "a" 2) (str file)))
  /\
  ((forall pre w post,
      leftmost (numbered_word "p" 3) (str file) pre w post ->
      get_fileno_p file = inr (Str.digits_val 0 (Str.drop 1 w)))
   /\ (get_fileno_p file = inl no_group <->
       absent (numbered_word "p" 3) (str file))
   /\ (raises (get_fileno_p file) = true <->
       absent (numbered_word "p" 3) (str file))).
Proof.
  split.
  - unfold get_fileno_a.
    rewrite (get_fileno_eq fileno_a_pat "a" 2 (str file))
      by (try lia; apply match_fileno_a_pat).
    split; [|split; split].
    + intros pre w post H.
      destruct (first_at_of_leftmost _ 3 (numbered_word_length "a" 2) _ _ _ _ H)
        as (-> & ->). reflexivity.
    + intros H. apply (absent_iff _ 3 (numbered_word_length "a" 2)).
      destruct (first_at _ (str file)); [discriminate H | reflexivity].
    + intros H. apply (absent_iff _ 3 (numbered_word_length "a" 2)) in H.
      now rewrite H.
    + intros H. apply (absent_iff _ 3 (numbered_word_length "a" 2)).
      destruct (first_at _ (str file)); [discriminate H | reflexivity].
    + intros H. apply (absent_iff _ 3 (numbered_word_length "a" 2)) in H.
      now rewrite H.
  - unfold get_fileno_p.
    rewrite (get_fileno_eq fileno_p_pat "p" 3 (str file))
      by (try lia; apply match_fileno_p_pat).
    split; [|split; split].
    + intros pre w post H.
      destruct (first_at_of_leftmost _ 4 (numbered_word_length "p" 3) _ _ _ _ H)
        as (-> & ->). reflexivity.
    + intros H. apply (absent_iff _ 4 (numbered_word_length "p" 3)).
      destruct (first_at _ (str file)); [discriminate H | reflexivity].
    + intros H. apply (absent_iff _ 4 (numbered_word_length "p" 3)) in H.
      now rewrite H.
    + intros H. apply (absent_iff _ 4 (numbered_word_length "p" 3)).
      destruct (first_at _ (str file)); [discriminate H | reflexivity].
    + intros H. apply (absent_iff _ 4 (numbered_word_length "p" 3)) in H.
      now rewrite H.
Qed.

Lemma get_fileno_searches_path_string_examples :
  get_fileno_a (of_string "/data/a03/rach3_p012.mp4") = inr 3%Z
  /\ get_fileno_p (of_string "/data/a03/rach3_p012.mp4") = inr 12%Z.
Proof.
  split.
  - apply (proj1 (proj1 (get_fileno_searches_path_string (of_string "/data/a03/rach3_p012.mp4")))
             "/data/" "a03" "/rach3_p012.mp4").
    exact (leftmost_of_first_at (numbered_word "a" 2) 3
             (numbered_word_length "a" 2)
             (str (of_string "/data/a03/rach3_p012.mp4")) 6 eq_refl).
  - apply (proj1 (proj2 (get_fileno_searches_path_string (of_string "/data/a03/rach3_p012.mp4")))
             "/data/a03/rach3_" "p012" ".mp4").
    exact (leftmost_of_first_at (numbered_word "p" 3) 4
             (numbered_word_length "p" 3)
             (str (of_string "/data/a03/rach3_p012.mp4")) 16 eq_refl).
Defined.

(** C8.  The two extractors are documented as giving the file number of
    a file, and the sibling [get_date] searches [file.name]; they search
    [str(file)] instead.  In data01/rach3_a07.flac the file name carries
    a07, and the search of the name gives 7, but [get_fileno_a] returns 1,
    read from the directory data01; in grp012/rach3_p003.mp4 the name
    carries p003 and [get_fileno_p] returns 12.  When the name has no such
    number (a12/p345/x.mid) they still return one.  [get_date] does not
    look at directories: a date that is only there is not found. *)
Theorem C8_directory_number_is_returned :
  name (of_string "data01/rach3_a07.flac") = "rach3_a07.flac"
  /\ (no <- search_group fileno_a_pat (name (of_string "data01/rach3_a07.flac")) ;;
      Str.int (Str.last_n 2 no)) = inr 7%Z
  /\ get_fileno_a (of_string "data01/rach3_a07.flac") = inr 1%Z
  /\ name (of_string "grp012/rach3_p003.mp4") = "rach3_p003.mp4"
  /\ (no <- search_group fileno_p_pat (name (of_string "grp012/rach3_p003.mp4")) ;;
      Str.int (Str.last_n 3 no)) = inr 3%Z
  /\ get_fileno_p (of_string "grp012/rach3_p003.mp4") = inr 12%Z
  /\ occurs (numbered_word "a" 2) 3 (name (of_string "a12/p345/x.mid")) = false
  /\ occurs (numbered_word "p" 3) 4 (name (of_string "a12/p345/x.mid")) = false
  /\ get_fileno_a (of_string "a12/p345/x.mid") = inr 12%Z
  /\ get_fileno_p (of_string "a12/p345/x.mid") = inr 345%Z
  /\ get_date (of_string "2023-05-01/rach3_a07.flac") = inl no_date.
Proof.
  repeat (split; [vm_compute; reflexivity|]). vm_compute. reflexivity.
Qed.

(** C9.  Whenever [get_split_no] returns, the value is in 0..99 (a last
    token split100 gives 10); hence [get_split_num_id] never raises the
    error of its [split_no >= 100] branch, whatever the file and the time
    zone. *)
Theorem C9_split_no_at_most_99 (file : Path) :
  (forall n, get_split_no file = inr n -> (0 <= n <= 99)%Z)
  /\ (forall mktime, get_split_num_id mktime file <> inl too_large)
  /\ get_split_no (of_string "session_split100.flac") = inr 10%Z.
Proof.
  split; [|split].
  - apply get_split_no_range.
  - intros mktime. apply too_large_not_raised.
  - vm_compute. reflexivity.
Qed.

Lemma C9_split_no_at_most_99_witness : (0 <= 3 <= 99)%Z.
Proof.
  exact (proj1 (C9_split_no_at_most_99 (of_string "session_split3.flac"))
           3%Z eq_refl).
Defined.

(** C10.  For every file that has a token "split" + one or two digits
    which is not the last token, and whose last token contains no digit,
    [is_split] returns true and [get_split_no] raises the AttributeError of
    the failed search (the stem a_split3_full is such a file). *)
Theorem C10_is_split_but_no_split_no (file : Path)
    (before after : list string) (t : string) :
  tokens file = (before ++ t :: after)%list ->
  after <> [] ->
  split_word t = true ->
  Str.has_digit (last_token file) = false ->
  is_split file = true /\ get_split_no file = inl no_group.
Proof.
  intros Htok _ Ht Hlast. split.
  - apply is_split_iff. exists t. split.
    + rewrite Htok. apply in_elt.
    + now apply split_word_chomp.
  - now apply get_split_no_no_digit.
Qed.

Lemma C10_is_split_but_no_split_no_witness :
  is_split (of_string "a_split3_full.flac") = true
  /\ get_split_no (of_string "a_split3_full.flac") = inl no_group.
Proof.
  apply (C10_is_split_but_no_split_no (of_string "a_split3_full.flac")
           ["a"] ["full"] "split3").
  - vm_compute. reflexivity.
  - discriminate.
  - vm_compute. reflexivity.
  - vm_compute. reflexivity.
Defined.

(** * Further properties of the module *)

(** ** Facts about the tokens *)

Module TokenFacts.

Lemma join_split (sep : ascii) (s : string) :
  Str.join (String sep "") (Str.split sep s) = s.
Proof.
  induction s as [|c s IH]; [reflexivity|].
  cbn [Str.split]. destruct (Ascii.eqb c sep) eqn:E.
  - apply Ascii.eqb_eq in E. subst c.
    destruct (Str.split sep s) as [|t ts] eqn:Es.
    + now apply split_not_nil in Es.
    + change (Str.join (String sep "") ("" :: t :: ts))
        with ("" ++ String sep "" ++ Str.join (String sep "") (t :: ts)).
      rewrite IH. reflexivity.
  - destruct (Str.split sep s) as [|t ts] eqn:Es.
    + now apply split_not_nil in Es.
    + destruct ts as [|u us].
      * cbn [Str.join] in *. now rewrite IH.
      * change (Str.join (String sep "") (String c t :: u :: us))
          with (String c (Str.join (String sep "") (t :: u :: us))).
        now rewrite IH.
Qed.

Lemma split_has_no_sep (sep : ascii) (s t : string) :
  In t (Str.split sep s) -> has_char sep t = false.
Proof.
  revert t. induction s as [|c s IH]; intros t; cbn [Str.split].
  - intros [<-|[]]. reflexivity.
  - destruct (Ascii.eqb c sep) eqn:E.
    + intros [<-|H]; [reflexivity | now apply IH].
    + destruct (Str.split sep s) as [|u us] eqn:Es.
      * now apply split_not_nil in Es.
      * intros [<-|H].
        -- cbn. rewrite E. apply IH. now left.
        -- apply IH. now right.
Qed.

(** The first piece is what precedes the first separator. *)
Lemma split_hd (sep : ascii) (s : string) :
  s = hd "" (Str.split sep s)
  \/ exists rest, s = hd "" (Str.split sep s) ++ String sep rest.
Proof.
  induction s as [|c s IH]; [now left|].
  cbn [Str.split]. destruct (Ascii.eqb c sep) eqn:E.
  - apply Ascii.eqb_eq in E. subst c. right. exists s. reflexivity.
  - destruct (Str.split sep s) as [|u us] eqn:Es.
    + now apply split_not_nil in Es.
    + cbn [hd] in *. destruct IH as [IH|(rest & IH)].
      * left. now rewrite IH at 1.
      * right. exists rest. now rewrite IH at 1.
Qed.

Lemma split_hd_prefix (sep : ascii) (w rest : string) :
  has_char sep w = false ->
  hd "" (Str.split sep (w ++ String sep rest)) = w.
Proof.
  induction w as [|c w IH]; cbn [has_char append Str.split]; intros H.
  - now rewrite Ascii.eqb_refl.
  - apply orb_false_iff in H as [Hc Hw]. rewrite Hc.
    specialize (IH Hw).
    destruct (Str.split sep (w ++ String sep rest)) as [|u us] eqn:Es.
    + now apply split_not_nil in Es.
    + cbn [hd] in *. now rewrite IH.
Qed.

Lemma split_hd_whole (sep : ascii) (w : string) :
  has_char sep w = false -> Str.split sep w = [w].
Proof.
  induction w as [|c w IH]; cbn [has_char Str.split]; intros H; [reflexivity|].
  apply orb_false_iff in H as [Hc Hw]. rewrite Hc, (IH Hw). reflexivity.
Qed.

End TokenFacts.
Import TokenFacts.

(** X1.  The tokens of a file ([file.stem.split("_")]) are never the empty
    list, none of them contains an underscore, joining them with
    underscores gives the stem back, and a stem without underscore is the
    single token. *)
Theorem X1_tokens_rebuild_stem (file : Path) :
  tokens file <> []
  /\ Str.join "_" (tokens file) = stem file
  /\ (forall t, In t (tokens file) -> has_char "_" t = false)
  /\ (has_char "_" (stem file) = false -> tokens file = [stem file]).
Proof.
  unfold tokens. split; [apply split_not_nil|]. split; [apply join_split|].
  split; [intros t; apply split_has_no_sep | apply split_hd_whole].
Qed.

(** X2.  [get_session_id] returns what precedes the first underscore of
    the stem (the whole stem when it has none): the result has no
    underscore and the stem is the result, or the result, an underscore and
    a rest.  [is_warmup] is true exactly when the stem is "warmup" or
    starts with "warmup_". *)
Theorem X2_session_id_is_stem_prefix (file : Path) :
  has_char "_" (get_session_id file) = false
  /\ (stem file = get_session_id file
      \/ exists rest, stem file = get_session_id file ++ "_" ++ rest)
  /\ (forall w rest, has_char "_" w = false ->
        stem file = w ++ "_" ++ rest -> get_session_id file = w)
  /\ (is_warmup file = true <->
      stem file = "warmup" \/ exists rest, stem file = "warmup_" ++ rest).
Proof.
  unfold is_warmup, get_session_id, first_token, tokens.
  split; [|split; [|split]].
  - apply (split_has_no_sep "_" (stem file)).
    destruct (Str.split "_" (stem file)) as [|u us] eqn:Es;
      [now apply split_not_nil in Es | now left].
  - apply split_hd.
  - intros w rest Hw Hs. rewrite Hs. now apply split_hd_prefix.
  - rewrite String.eqb_eq. split.
    + intros H. destruct (split_hd "_" (stem file)) as [E|(rest & E)];
        rewrite H in E; [left; exact E | right; exists rest; exact E].
    + intros [H|(rest & H)]; rewrite H.
      * reflexivity.
      * now apply (split_hd_prefix "_" "warmup" rest).
Qed.

Ltac split_ifs :=
  repeat match goal with
         | |- context [if ?b then _ else _] => destruct b eqn:?
         end.

(** X3.  A tag that [get_type] returns fits the extension of the path:
    full_midi and split_midi only for .mid, full_flac and split_flac only
    for .flac, the four video tags only for .mp4, full_audio and audio only
    for .aac; the values midi, flac, mp4 and aac of [filetypes] are never
    returned. *)
Theorem X3_tag_fits_extension (path : Path) (t : filetype) :
  get_type path = inr (Some t) -> tag_suffix t = Some (suffix path).
Proof.
  suffix_cases path; cbn;
    destruct (last_token path) as [|c r]; cbn; split_ifs;
    intros [= <-]; reflexivity.
Qed.

Lemma X3_tag_fits_extension_witness :
  tag_suffix split_flac = Some (suffix (of_string "session_split3.flac")).
Proof.
  apply (X3_tag_fits_extension (of_string "session_split3.flac") split_flac).
  vm_compute. reflexivity.
Defined.

(** X5.  What each tag means: for each of the ten tags [get_type] can
    return, the exact condition on the extension, on the tokens and on the
    last token under which it is returned. *)
Theorem X5_tags_characterised (path : Path) :
  (get_type path = inr (Some full_midi) <->
   suffix path = ".mid" /\ begins_with "a" (last_token path) = true)
  /\ (get_type path = inr (Some split_midi) <->
      suffix path = ".mid" /\ last_token path <> ""
      /\ begins_with "a" (last_token path) = false /\ is_split path = true)
  /\ (get_type path = inr (Some full_flac) <->
      suffix path = ".flac" /\ begins_with "a" (last_token path) = true)
  /\ (get_type path = inr (Some split_flac) <->
      suffix path = ".flac" /\ last_token path <> ""
      /\ begins_with "a" (last_token path) = false /\ is_split path = true)
  /\ (get_type path = inr (Some trimmed_video) <->
      suffix path = ".mp4" /\ is_trimmed path = true)
  /\ (get_type path = inr (Some full_video) <->
      suffix path = ".mp4" /\ is_trimmed path = false
      /\ last_token path = "full")
  /\ (get_type path = inr (Some video) <->
      suffix path = ".mp4" /\ is_trimmed path = false
      /\ begins_with "p" (last_token path) = true)
  /\ (get_type path = inr (Some split_video) <->
      suffix path = ".mp4" /\ is_trimmed path = false
      /\ last_token path <> "" /\ last_token path <> "full"
      /\ begins_with "p" (last_token path) = false /\ is_split path = true)
  /\ (get_type path = inr (Some full_audio) <->
      suffix path = ".aac" /\ Str.mem "full" (tokens path) = true)
  /\ (get_type path = inr (Some audio) <->
      suffix path = ".aac" /\ Str.mem "full" (tokens path) = false
      /\ begins_with "p" (last_token path) = true).
Proof.
  repeat apply conj;
  suffix_cases path;
  (destruct (String.eqb (last_token path) "full") eqn:Efull;
   [apply String.eqb_eq in Efull; rewrite ?Efull in *
   |apply String.eqb_neq in Efull;
    destruct (last_token path) as [|c r] eqn:El]);
  cbn -[String.eqb Ascii.eqb];
  repeat match goal with
         | |- context [is_trimmed path] => destruct (is_trimmed path)
         | |- context [is_split path] => destruct (is_split path)
         | |- context [Str.mem "full" (tokens path)] =>
             destruct (Str.mem "full" (tokens path))
         | |- context [Ascii.eqb ?a ?b] => destruct (Ascii.eqb a b) eqn:?
         end; cbn -[String.eqb Ascii.eqb];
  try (intuition congruence).
  vm_compute in Heqb. discriminate Heqb.
Qed.

Lemma X5_tags_characterised_witness :
  get_type (of_string "rach3_2023-05-01_p003.mp4") = inr (Some video).
Proof.
  apply (proj1 (proj2 (proj2 (proj2 (proj2 (proj2 (proj2
           (X5_tags_characterised (of_string "rach3_2023-05-01_p003.mp4"))))))))).
  vm_compute. repeat split.
Defined.

(** X6.  [is_valid_midi] and [is_valid_flac] test the extension first:
    they raise (IndexError) only on a path of their own extension with an
    empty last token.  [is_valid_video] and [is_valid_audio] index the last
    token first: they raise on every path with an empty last token,
    whatever its extension.  Each returns true exactly when the extension
    is its own and the last token starts with its letter. *)
Theorem X6_valid_predicates_raise (file : Path) :
  (raises (is_valid_midi file) = true <->
   suffix file = ".mid" /\ last_token file = "")
  /\ (raises (is_valid_flac file) = true <->
      suffix file = ".flac" /\ last_token file = "")
  /\ (raises (is_valid_video file) = true <-> last_token file = "")
  /\ (raises (is_valid_audio file) = true <-> last_token file = "")
  /\ (is_valid_midi file = inr true <->
      suffix file = ".mid" /\ begins_with "a" (last_token file) = true)
  /\ (is_valid_flac file = inr true <->
      suffix file = ".flac" /\ begins_with "a" (last_token file) = true)
  /\ (is_valid_video file = inr true <->
      suffix file = ".mp4" /\ begins_with "p" (last_token file) = true)
  /\ (is_valid_audio file = inr true <->
      suffix file = ".aac" /\ begins_with "p" (last_token file) = true).
Proof.
  unfold is_valid_midi, is_valid_flac, is_valid_video, is_valid_audio,
    bind, ret, raise.
  repeat apply conj;
    repeat match goal with
           | |- context [String.eqb (suffix file) ?x] =>
               destruct (String.eqb (suffix file) x) eqn:?
           end;
    rewrite ?String.eqb_eq, ?String.eqb_neq in *;
    destruct (last_token file) as [|c r]; cbn -[String.eqb];
    try destruct (Ascii.eqb c _); cbn;
    try (intuition congruence).
Qed.

Lemma X6_valid_predicates_raise_witness :
  raises (is_valid_video (of_string "rach3_.mid")) = true
  /\ is_valid_midi (of_string "rach3_.flac") = inr false.
Proof.
  split.
  - apply (proj2 (proj1 (proj2 (proj2 (X6_valid_predicates_raise
                                         (of_string "rach3_.mid")))))).
    vm_compute. reflexivity.
  - vm_compute. reflexivity.
Defined.

(** ** Facts about the last token *)

Module SplitFacts.

Lemma strip_prefix_app (p s r : string) :
  strip_prefix p s = Some r -> s = p ++ r.
Proof.
  revert s. induction p as [|a p IH]; intros s; cbn.
  - now intros [= ->].
  - destruct s as [|b s]; [discriminate|].
    destruct (Ascii.eqb a b) eqn:E; [|discriminate].
    apply Ascii.eqb_eq in E. subst b. intros H. now rewrite (IH s H).
Qed.

Lemma last_in {A : Type} (l : list A) (d : A) : l <> [] -> In (last l d) l.
Proof.
  induction l as [|x l IH]; [congruence|]. intros _.
  destruct l as [|y l]; [now left|].
  right. apply IH. discriminate.
Qed.

Lemma last_token_in (file : Path) : In (last_token file) (tokens file).
Proof. apply last_in, split_not_nil. Qed.

(** The digits of a token "split" + digits are all of what [\d{1,2}] finds. *)
Lemma first_digits_of_split_word (ds : string) :
  digit_run 1 2 ds = true ->
  first_at starts_digit ("split" ++ ds) = Some 5%nat
  /\ digit_prefix ds = ds.
Proof.
  unfold digit_run. intros H.
  apply andb_true_iff in H as [H Hd]. apply andb_true_iff in H as [H1 H2].
  apply Nat.leb_le in H1, H2.
  destruct ds as [|d1 [|d2 [|d3 r]]]; cbn in H1, H2; try lia;
    cbn [Str.all_digits] in Hd;
    repeat match goal with
           | H : _ && _ = true |- _ => apply andb_true_iff in H as [? ?]
           end.
  - split; [|reflexivity].
    change (first_at starts_digit ("split" ++ String d1 ""))
      with (option_map S (option_map S (option_map S (option_map S (option_map S
              (first_at starts_digit (String d1 ""))))))).
    cbn [first_at starts_digit]. now rewrite H.
  - split.
    + change (first_at starts_digit ("split" ++ String d1 (String d2 "")))
        with (option_map S (option_map S (option_map S (option_map S (option_map S
                (first_at starts_digit (String d1 (String d2 "")))))))).
      cbn [first_at starts_digit]. now rewrite H.
    + cbn. now rewrite H0.
Qed.

Lemma has_digit_take (s : string) (i : nat) :
  (forall j, (j < i)%nat -> starts_digit (Str.drop j s) = false) ->
  Str.has_digit (Str.take i s) = false.
Proof.
  revert s. induction i as [|i IH]; intros s H; [reflexivity|].
  destruct s as [|c s]; [reflexivity|].
  cbn [Str.take Str.has_digit].
  rewrite (H 0%nat ltac:(lia) : Str.is_digit c = false). cbn.
  apply IH. intros j Hj. apply (H (S j)). lia.
Qed.

End SplitFacts.
Import SplitFacts.

(** X7.  For every file whose last token is "split" followed by one or two
    digits, [is_split] is true, [get_split_no] returns the number those
    digits write, and [get_type] returns split_midi for .mid, split_flac
    for .flac, split_video for .mp4 (trimmed_video when "trimmed" is a
    token), and for .aac no tag (full_audio when "full" is a token). *)
Theorem X7_last_token_split (file : Path) :
  split_word (last_token file) = true ->
  is_split file = true
  /\ get_split_no file = inr (Str.digits_val 0 (Str.drop 5 (last_token file)))
  /\ (suffix file = ".mid" -> get_type file = inr (Some split_midi))
  /\ (suffix file = ".flac" -> get_type file = inr (Some split_flac))
  /\ (suffix file = ".mp4" ->
      get_type file
      = inr (Some (if is_trimmed file then trimmed_video else split_video)))
  /\ (suffix file = ".aac" ->
      get_type file
      = inr (if Str.mem "full" (tokens file) then Some full_audio else None)).
Proof.
  intros Hw.
  assert (His : is_split file = true).
  { apply is_split_iff. exists (last_token file).
    split; [apply last_token_in | now apply split_word_chomp]. }
  unfold split_word in Hw.
  destruct (strip_prefix "split" (last_token file)) as [ds|] eqn:Es;
    [|discriminate].
  apply strip_prefix_app in Es.
  destruct (first_digits_of_split_word ds Hw) as (Hf & Hp).
  split; [exact His|]. split.
  - rewrite get_split_no_eq, Es, Hf.
    change (Str.drop 5 ("split" ++ ds)) with ds. now rewrite Hp.
  - unfold get_type, is_valid_midi, is_valid_flac, is_valid_video,
      is_valid_audio, is_full_video, is_full_audio, bind, ret.
    rewrite His, Es.
    repeat split; intros ->; cbn; try reflexivity;
      destruct (is_trimmed file), (Str.mem "full" (tokens file)); reflexivity.
Qed.

Lemma X7_last_token_split_witness :
  is_split (of_string "session_split23.mp4") = true
  /\ get_split_no (of_string "session_split23.mp4") = inr 23%Z
  /\ get_type (of_string "session_split23.mp4") = inr (Some split_video).
Proof.
  destruct (X7_last_token_split (of_string "session_split23.mp4") eq_refl)
    as (H1 & H2 & _ & _ & H3 & _).
  split; [exact H1|]. split; [exact H2|]. exact (H3 eq_refl).
Defined.

(** X8.  [get_split_no] raises exactly when the last token contains no
    digit, and then the AttributeError of the failed search; otherwise it
    returns the number written by the first digit of the last token
    together with the character after it when that is a digit too. *)
Theorem X8_get_split_no_reads_first_digits (file : Path) :
  (raises (get_split_no file) = true <->
   Str.has_digit (last_token file) = false)
  /\ (forall e, get_split_no file = inl e -> e = no_group)
  /\ (forall n, get_split_no file = inr n ->
        exists pre rest,
          last_token file = pre ++ rest
          /\ Str.has_digit pre = false
          /\ starts_digit rest = true
          /\ n = Str.digits_val 0 (digit_prefix rest)).
Proof.
  split; [|split].
  - rewrite get_split_no_eq, <- first_at_starts_digit.
    destruct (first_at starts_digit (last_token file)); cbn;
      split; congruence.
  - apply get_split_no_error.
  - intros n. rewrite get_split_no_eq.
    destruct (first_at starts_digit (last_token file)) as [i|] eqn:E;
      [|discriminate].
    intros [= <-]. destruct (first_at_some _ _ _ E) as (Hl & Hp & Hm).
    exists (Str.take i (last_token file)), (Str.drop i (last_token file)).
    split; [now rewrite take_drop|].
    split; [now apply has_digit_take|]. split; [exact Hp | reflexivity].
Qed.

Lemma X8_get_split_no_reads_first_digits_witness :
  raises (get_split_no (of_string "rach3_2023-05-01_full.mp4")) = true.
Proof.
  apply (proj1 (X8_get_split_no_reads_first_digits
                  (of_string "rach3_2023-05-01_full.mp4"))).
  vm_compute. reflexivity.
Defined.



(** X10.  The id sorts by date, then by split number: for two files on
    which the extractors succeed, the id divided by 100 is the epoch
    seconds of the date; an earlier date gives a smaller id whatever the
    split numbers; and with equal epoch seconds the ids compare as the
    split numbers do. *)
Theorem X10_split_num_id_sorts (mktime : datetime -> Z) (f1 f2 : Path)
    (d1 d2 : string) (dt1 dt2 : datetime) (n1 n2 : Z) :
  get_date f1 = inr d1 -> strptime d1 = inr dt1 -> get_split_no f1 = inr n1 ->
  get_date f2 = inr d2 -> strptime d2 = inr dt2 -> get_split_no f2 = inr n2 ->
  exists i1 i2,
    get_split_num_id mktime f1 = inr i1
    /\ get_split_num_id mktime f2 = inr i2
    /\ (i1 / 100 = mktime dt1)%Z
    /\ ((mktime dt1 < mktime dt2)%Z -> (i1 < i2)%Z)
    /\ (mktime dt1 = mktime dt2 -> ((i1 < i2)%Z <-> (n1 < n2)%Z)).
Proof.
  intros Hd1 Hp1 Hn1 Hd2 Hp2 Hn2.
  pose proof (get_split_no_range _ _ Hn1) as R1.
  pose proof (get_split_no_range _ _ Hn2) as R2.
  exists (mktime dt1 * 100 + n1)%Z, (mktime dt2 * 100 + n2)%Z.
  split; [now apply (get_split_num_id_eq mktime f1 d1)|].
  split; [now apply (get_split_num_id_eq mktime f2 d2)|].
  split; [|split].
  - rewrite Z.add_comm, Z.div_add by lia. rewrite Z.div_small; lia.
  - lia.
  - intros ->. lia.
Qed.

Lemma X10_split_num_id_sorts_witness :
  exists i1 i2,
    get_split_num_id utc_mktime (of_string "rach3_2023-05-01_split30.flac") = inr i1
    /\ get_split_num_id utc_mktime (of_string "rach3_2023-05-02_split3.flac") = inr i2
    /\ (i1 < i2)%Z.
Proof.
  destruct (X10_split_num_id_sorts utc_mktime
              (of_string "rach3_2023-05-01_split30.flac")
              (of_string "rach3_2023-05-02_split3.flac")
              "2023-05-01" "2023-05-02" (mkDate 2023 5 1) (mkDate 2023 5 2)
              30 3 eq_refl eq_refl eq_refl eq_refl eq_refl eq_refl)
    as (i1 & i2 & H1 & H2 & _ & H3 & _).
  exists i1, i2. split; [exact H1|]. split; [exact H2|].
  apply H3. vm_compute. reflexivity.
Defined.

(** X11.  Whatever [get_date] returns is a word dddd-dd-dd of ten
    characters, the leftmost one of the file name; the only exception it
    raises is IdentityError, and then the name contains no such word. *)
Theorem X11_get_date_returns_a_date (file : Path) :
  (forall d, get_date file = inr d ->
     date_word d = true /\ String.length d = 10%nat
     /\ exists pre post, leftmost date_word (name file) pre d post)
  /\ (forall e, get_date file = inl e ->
        e = no_date /\ absent date_word (name file)).
Proof.
  split.
  - intros d. rewrite get_date_eq.
    destruct (first_at (starts_with date_word 10) (name file)) as [i|] eqn:E;
      [|discriminate].
    intros [= <-].
    pose proof (leftmost_of_first_at _ 10 date_word_length _ _ E) as L.
    split; [exact (proj1 (proj2 L))|].
    split; [exact (date_word_length _ (proj1 (proj2 L)))|]. eauto.
  - intros e. rewrite get_date_eq.
    destruct (first_at (starts_with date_word 10) (name file)) as [i|] eqn:E;
      [discriminate|].
    intros [= <-]. split; [reflexivity|].
    now apply (absent_iff _ 10 date_word_length).
Qed.

Lemma X11_get_date_returns_a_date_witness :
  date_word "2023-05-01" = true.
Proof.
  exact (proj1 (proj1 (X11_get_date_returns_a_date
                         (of_string "rach3_2023-05-01_a01.mid"))
                  "2023-05-01" eq_refl)).
Defined.

(** ** Facts about the numbers read *)

Module NumberFacts.

Lemma digits_val_2 (s : string) :
  digit_run 2 2 s = true -> (0 <= Str.digits_val 0 s <= 99)%Z.
Proof.
  intros H. apply digits_val_12. unfold digit_run in *.
  apply andb_true_iff in H as [H Hd]. apply andb_true_iff in H as [H1 H2].
  apply Nat.leb_le in H1, H2. rewrite Hd, andb_true_r.
  apply andb_true_iff. split; apply Nat.leb_le; lia.
Qed.

Lemma digits_val_3 (s : string) :
  digit_run 3 3 s = true -> (0 <= Str.digits_val 0 s <= 999)%Z.
Proof.
  unfold digit_run.
  destruct s as [|c0 [|c1 [|c2 [|c3 r]]]]; cbn; try discriminate.
  rewrite andb_true_r. intros H.
  apply andb_true_iff in H as [H0 H]. apply andb_true_iff in H as [H1 H2].
  pose proof (digit_val_range _ H0). pose proof (digit_val_range _ H1).
  pose proof (digit_val_range _ H2). lia.
Qed.

Lemma length_chomp (t : string) : (String.length (chomp t) <= String.length t)%nat.
Proof.
  induction t as [|c t IH]; [reflexivity|].
  destruct t as [|c' t].
  - cbn. destruct (Ascii.eqb c Str.newline); cbn; lia.
  - change (chomp (String c (String c' t))) with (String c (chomp (String c' t))).
    cbn [String.length] in *. lia.
Qed.

Lemma session_word_length (t : string) :
  session_word t = true -> String.length t = 3%nat.
Proof.
  destruct t as [|c ds]; [discriminate|]. cbn [session_word].
  intros H. apply andb_true_iff in H as [_ H].
  cbn. now rewrite (digit_run_length _ _ H).
Qed.

Lemma get_session_no_loop_some (l : list string) (s : string) :
  get_session_no_loop l = Some s ->
  exists before t after,
    l = (before ++ t :: after)%list
    /\ session_word (chomp t) = true
    /\ (forall u, In u before -> session_word (chomp u) = false)
    /\ s = "a" ++ Str.last_n 2 t.
Proof.
  induction l as [|u l IH]; [discriminate|].
  cbn [get_session_no_loop]. rewrite found_session_pat.
  destruct (session_word (chomp u)) eqn:E.
  - intros [= <-]. exists [], u, l. repeat split; [exact E | intros ? []].
  - intros H. destruct (IH H) as (before & t & after & -> & Ht & Hb & ->).
    exists (u :: before), t, after. repeat split; [exact Ht|].
    intros v [<-|Hv]; [exact E | now apply Hb].
Qed.

End NumberFacts.
Import NumberFacts.

(** X12.  [get_fileno_a] returns a number in 0..99 and [get_fileno_p] a
    number in 0..999; the only exception either raises is the
    AttributeError of the failed search ([int] never fails on what the
    search matched). *)
Theorem X12_fileno_bounds (file : Path) :
  (forall n, get_fileno_a file = inr n -> (0 <= n <= 99)%Z)
  /\ (forall n, get_fileno_p file = inr n -> (0 <= n <= 999)%Z)
  /\ (forall e, get_fileno_a file = inl e -> e = no_group)
  /\ (forall e, get_fileno_p file = inl e -> e = no_group).
Proof.
  unfold get_fileno_a, get_fileno_p.
  rewrite (get_fileno_eq fileno_a_pat "a" 2 (str file))
    by (try lia; apply match_fileno_a_pat).
  rewrite (get_fileno_eq fileno_p_pat "p" 3 (str file))
    by (try lia; apply match_fileno_p_pat).
  split; [|split; [|split]].
  - intros n.
    destruct (first_at (starts_with (numbered_word "a" 2) 3) (str file))
      as [i|] eqn:E; [|discriminate].
    destruct (first_at_some _ _ _ E) as (_ & Hp & _).
    unfold starts_with, numbered_word in Hp.
    set (w := Str.take 3 (Str.drop i (str file))) in *. clearbody w.
    intros [= <-]. destruct w as [|x ds]; [discriminate|].
    apply andb_true_iff in Hp as [_ Hp]. apply digits_val_2. exact Hp.
  - intros n.
    destruct (first_at (starts_with (numbered_word "p" 3) 4) (str file))
      as [i|] eqn:E; [|discriminate].
    destruct (first_at_some _ _ _ E) as (_ & Hp & _).
    unfold starts_with, numbered_word in Hp.
    set (w := Str.take 4 (Str.drop i (str file))) in *. clearbody w.
    intros [= <-]. destruct w as [|x ds]; [discriminate|].
    apply andb_true_iff in Hp as [_ Hp]. apply digits_val_3. exact Hp.
  - intros e. destruct (first_at _ (str file)); congruence.
  - intros e. destruct (first_at _ (str file)); congruence.
Qed.

Lemma X12_fileno_bounds_witness : (0 <= 12 <= 999)%Z.
Proof.
  exact (proj1 (proj2 (X12_fileno_bounds (of_string "/data/a03/rach3_p012.mp4")))
           12%Z eq_refl).
Defined.

(** X13.  Whatever [get_session_no] returns has three characters, the
    first of them "a", and is built from the first token of the stem that
    the session pattern matches. *)
Theorem X13_session_no_comes_from_a_token (file : Path) (s : string) :
  get_session_no file = Some s ->
  String.length s = 3%nat
  /\ begins_with "a" s = true
  /\ exists before t after,
       tokens file = (before ++ t :: after)%list
       /\ session_word (chomp t) = true
       /\ (forall u, In u before -> session_word (chomp u) = false)
       /\ s = "a" ++ Str.last_n 2 t.
Proof.
  intros H. apply get_session_no_loop_some in H
    as (before & t & after & Htok & Ht & Hb & ->).
  split; [|split; [reflexivity | eauto 8]].
  pose proof (session_word_length _ Ht) as Hl.
  pose proof (length_chomp t) as Hc.
  cbn [append String.length]. unfold Str.last_n.
  rewrite length_drop. lia.
Qed.

Lemma X13_session_no_comes_from_a_token_witness :
  String.length "a07" = 3%nat.
Proof.
  exact (proj1 (X13_session_no_comes_from_a_token
                  (of_string "rach3_2023-05-01_v07.mp4") "a07" eq_refl)).
Defined.

(** ** Facts about the directory scan *)

Module ScanFacts.

Lemma in_select (ext : string) (here : list string) (l : list entry)
    (p : list string) :
  In p (select ext here l) <->
  exists e, In e l /\ ends_with ext (entry_name e) = true
            /\ p = (here ++ [entry_name e])%list.
Proof.
  unfold select. rewrite in_map_iff. split.
  - intros (e & <- & H). apply filter_In in H as [Hin He]. eauto.
  - intros (e & Hin & He & ->). exists e. split; [reflexivity|].
    apply filter_In. now split.
Qed.

(** Induction on an entry, with the property known of what a directory
    lists. *)
Lemma entry_induction (P : entry -> Prop) :
  (forall nm, P (File nm)) ->
  (forall nm sub, Forall P sub -> P (Dir nm sub)) ->
  forall e, P e.
Proof.
  intros Hf Hd. fix IH 1. intros [nm|nm sub]; [apply Hf|].
  apply Hd. induction sub as [|x sub IHsub]; constructor;
    [apply IH | exact IHsub].
Qed.

Lemma in_select_in (ext : string) (e : entry) :
  forall (here p : list string),
  In p (select_in ext here e) <->
  exists nm sub rel e',
    e = Dir nm sub /\ leads_to sub rel e'
    /\ ends_with ext (entry_name e') = true
    /\ p = (here ++ nm :: rel)%list.
Proof.
  induction e as [nm|nm sub IH] using entry_induction; intros here p;
    cbn [select_in].
  - split; [intros [] | intros (? & ? & ? & ? & [=] & _)].
  - rewrite Forall_forall in IH.
    rewrite in_app_iff, in_select, in_flat_map. split.
    + intros [(e' & Hin & He & ->) | (d & Hin & Hd)].
      * exists nm, sub, [entry_name e'], e'.
        split; [reflexivity|]. split; [now apply leads_here|].
        split; [exact He|]. now rewrite <- app_assoc.
      * apply (IH d Hin) in Hd as (n & s & rel & e' & -> & Hl & He & ->).
        exists nm, sub, (n :: rel), e'.
        split; [reflexivity|]. split; [now apply (leads_down sub n s)|].
        split; [exact He|]. now rewrite <- app_assoc.
    + intros (n & s & rel & e' & [= <- <-] & Hl & He & ->).
      inversion Hl; subst.
      * left. exists e'. split; [assumption|]. split; [exact He|].
        now rewrite <- app_assoc.
      * right. exists (Dir nm0 sub0). split; [assumption|].
        apply (IH (Dir nm0 sub0)); [assumption|].
        exists nm0, sub0, rel0, e'.
        split; [reflexivity|]. split; [assumption|]. split; [exact He|].
        now rewrite <- app_assoc.
Qed.

Lemma in_rglob_parts (ext : string) (here : list string) (l : list entry)
    (p : list string) :
  In p (select ext here l ++ select_below ext here l) <->
  exists rel e, leads_to l rel e /\ ends_with ext (entry_name e) = true
                /\ p = (here ++ rel)%list.
Proof.
  unfold select_below. rewrite in_app_iff, in_select, in_flat_map. split.
  - intros [(e & Hin & He & ->) | (d & Hin & Hd)].
    + exists [entry_name e], e. split; [now apply leads_here | now split].
    + apply in_select_in in Hd as (n & s & rel & e & -> & Hl & He & ->).
      exists (n :: rel), e. split; [now apply (leads_down l n s) | now split].
  - intros (rel & e & Hl & He & ->). inversion Hl; subst.
    + left. exists e. now repeat split.
    + right. exists (Dir nm sub). split; [assumption|].
      apply in_select_in. exists nm, sub, rel0, e. now repeat split.
Qed.

Lemma leads_to_last (l : list entry) (rel : list string) (e : entry) :
  leads_to l rel e -> rel <> [] /\ last rel "" = entry_name e.
Proof.
  induction 1 as [l e Hin | l nm sub rel e Hin Hl [Hne IH]].
  - split; [discriminate | reflexivity].
  - split; [discriminate|]. destruct rel; [congruence | exact IH].
Qed.

Lemma rfind_absent (c : ascii) (s : string) :
  has_char c s = false -> Str.rfind c s = (-1)%Z.
Proof.
  induction s as [|a s IH]; [reflexivity|]. cbn [has_char Str.rfind].
  intros H. apply orb_false_iff in H as [Ha Hs]. now rewrite (IH Hs), Ha.
Qed.

Lemma rfind_last (c : ascii) (x e : string) :
  has_char c e = false ->
  Str.rfind c (x ++ String c e) = Z.of_nat (String.length x).
Proof.
  intros He. induction x as [|a x IH].
  - cbn [append Str.rfind String.length]. rewrite (rfind_absent c e He).
    now rewrite Ascii.eqb_refl.
  - cbn [append Str.rfind String.length]. rewrite IH.
    destruct (0 <=? Z.of_nat (String.length x))%Z eqn:L; [lia|].
    apply Z.leb_gt in L. lia.
Qed.

Lemma ends_with_app (ext s : string) :
  ends_with ext s = true <-> exists x, s = x ++ ext.
Proof.
  split.
  - induction s as [|a s IH]; cbn [ends_with].
    + rewrite orb_false_r, String.eqb_eq. intros ->. now exists "".
    + intros H. apply orb_true_iff in H as [H|H].
      * apply String.eqb_eq in H. now exists "".
      * destruct (IH H) as (x & ->). now exists (String a x).
  - intros (x & ->). induction x as [|a x IH].
    + destruct ext; cbn [append ends_with]; now rewrite String.eqb_refl.
    + cbn [append ends_with]. now rewrite IH, orb_true_r.
Qed.

(** [suffix] and [stem] of a name that ends with one of the extensions and
    has something before it. *)
Lemma suffix_of_name (p : Path) (x : string) (ft : suffixes) :
  x <> "" -> name p = x ++ suffix_string ft ->
  suffix p = suffix_string ft /\ stem p = x.
Proof.
  intros Hx Hn.
  assert (Hi : suffix_index (name p) = Some (String.length x)).
  { rewrite Hn. unfold suffix_index.
    assert (Hr : Str.rfind dot (x ++ suffix_string ft)
                 = Z.of_nat (String.length x))
      by (destruct ft; apply rfind_last; reflexivity).
    rewrite Hr, length_app, Nat2Z.id.
    assert (L : (2 <= String.length (suffix_string ft))%nat)
      by (destruct ft; cbn; lia).
    destruct x as [|a x]; [congruence|]. cbn [String.length].
    destruct (0 <? Z.of_nat (S (String.length x)))%Z eqn:L1;
      [|apply Z.ltb_ge in L1; lia].
    destruct (Z.of_nat (S (String.length x))
              <? Z.of_nat (S (String.length x) + String.length (suffix_string ft)) - 1)%Z
      eqn:L2; [reflexivity | apply Z.ltb_ge in L2; lia]. }
  unfold suffix, stem. rewrite Hi, Hn. split; [apply drop_app | apply take_app].
Qed.

Lemma suffix_of_bare_extension (p : Path) (ft : suffixes) :
  name p = suffix_string ft -> suffix p = "" /\ get_type p = inr None.
Proof.
  intros Hn.
  assert (Hs : suffix p = "")
    by (unfold suffix; rewrite Hn; now destruct ft).
  split; [exact Hs|]. unfold get_type. now rewrite Hs.
Qed.

Lemma last_app_right {A : Type} (a b : list A) (d : A) :
  b <> [] -> last (a ++ b)%list d = last b d.
Proof.
  intros Hb. induction a as [|x a IH]; [reflexivity|].
  cbn [app]. destruct (a ++ b)%list eqn:E.
  - apply app_eq_nil in E as [_ ->]. congruence.
  - exact IH.
Qed.

End ScanFacts.
Import ScanFacts.

(** X14.  [get_files_by_type] returns exactly the entries below the root,
    at any depth, files and directories alike, whose name ends with the
    extension: a path is in the result if and only if it is the root
    followed by a chain of directory names and the name of such an
    entry. *)
Theorem X14_scan_membership (listing : list entry) (root p : Path)
    (filetype : suffixes) :
  In p (get_files_by_type listing root filetype) <->
  exists rel e,
    leads_to listing rel e
    /\ ends_with (suffix_string filetype) (entry_name e) = true
    /\ p = mkPath (rooted root) (parts root ++ rel).
Proof.
  unfold get_files_by_type, rglob. rewrite in_map_iff. split.
  - intros (q & <- & Hq). apply in_rglob_parts in Hq as (rel & e & Hl & He & ->).
    eauto.
  - intros (rel & e & Hl & He & ->). exists (parts root ++ rel)%list.
    split; [reflexivity|]. apply in_rglob_parts. eauto.
Qed.

(** X15.  Every path that [get_files_by_type] returns has a name ending
    with the extension asked for; unless the name is the bare extension,
    its [suffix] is that extension and its name is its stem followed by the
    extension; a name that is the bare extension (".mid") has the empty
    [suffix] and [get_type] gives it no tag. *)
Theorem X15_scan_results_have_the_extension (listing : list entry)
    (root p : Path) (filetype : suffixes) :
  In p (get_files_by_type listing root filetype) ->
  ends_with (suffix_string filetype) (name p) = true
  /\ (name p <> suffix_string filetype ->
      suffix p = suffix_string filetype
      /\ name p = stem p ++ suffix_string filetype)
  /\ (name p = suffix_string filetype ->
      suffix p = "" /\ get_type p = inr None).
Proof.
  unfold get_files_by_type, rglob. rewrite in_map_iff.
  intros (q & <- & Hq). apply in_rglob_parts in Hq as (rel & e & Hl & He & ->).
  destruct (leads_to_last _ _ _ Hl) as (Hne & Hlast).
  set (p := mkPath (rooted root) (parts root ++ rel)).
  assert (Hn : name p = entry_name e)
    by (unfold name, p; cbn [parts]; now rewrite last_app_right).
  rewrite Hn. split; [exact He|].
  apply ends_with_app in He as (x & Hx). split.
  - intros Hd. rewrite Hx in Hn.
    destruct (suffix_of_name p x filetype) as (Hs & Ht); [|exact Hn|].
    + intros ->. now apply Hd.
    + now rewrite Hs, Ht.
  - intros Hd. apply (suffix_of_bare_extension p filetype). now rewrite Hn.
Qed.

Lemma X15_scan_results_have_the_extension_witness :
  suffix (of_string "data/s1/rach3_a01.mid") = ".mid".
Proof.
  refine (proj1 (proj1 (proj2 (X15_scan_results_have_the_extension
            [ File "notes.midi";
              Dir "s1" [ File "rach3_a01.mid"; File "rach3_a02.mid" ];
              Dir "s2" [ Dir "takes" [ File "rach3_split3.mid" ] ] ]
            (of_string "data") (of_string "data/s1/rach3_a01.mid") dot_mid _)) _)).
  - vm_compute. tauto.
  - vm_compute. discriminate.
Defined.

(** The scan of a tree with three .mid files and one .midi file. *)
Example scan_three_mid_files :
  get_files_by_type
    [ File "notes.midi";
      Dir "s1" [ File "rach3_a01.mid"; File "rach3_a02.mid" ];
      Dir "s2" [ Dir "takes" [ File "rach3_split3.mid" ] ] ]
    (of_string "data") dot_mid
  = [ of_string "data/s1/rach3_a01.mid"; of_string "data/s1/rach3_a02.mid";
      of_string "data/s2/takes/rach3_split3.mid" ].
Proof.
  vm_compute. reflexivity.
Qed.
